(** * PrimeStay: a shallow embedding of [app.py]

    The Flask application is embedded as pure functions over an explicit
    database state (one list of rows per table), an explicit upload tree
    (the set of paths that exist) and an explicit client session.  The
    libraries the application calls (werkzeug, the e-mail validator, the
    clock) are interfaces; SQLite's [LIKE] and [lower] and the Python
    string built-ins the handlers use are written out. *)

From Stdlib Require Import ZArith String Ascii List Lia.
From Stdlib Require Import DecimalString DecimalPos DecimalZ.
From Stdlib Require Import Sorting.Sorted Sorting.Permutation.
From Stdlib Require Import Floats.PrimFloat.
From stdpp Require Import gmap strings list.

Open Scope string_scope.
Open Scope Z_scope.

(** * Python built-ins used by the handlers

    A [str] is a sequence of code points; the embedding covers the code
    points below 256, one [ascii] each. *)

Module Py.

Definition code (c : ascii) : N := N_of_ascii c.

(** [str.isspace] on one code point below 256. *)
Definition isspace (c : ascii) : bool :=
  let n := code c in
  ((9 <=? n)%N && (n <=? 13)%N) || ((28 <=? n)%N && (n <=? 32)%N)
  || (n =? 133)%N || (n =? 160)%N.

Fixpoint lstrip (s : string) : string :=
  match s with
  | EmptyString => EmptyString
  | String c s' => if isspace c then lstrip s' else s
  end.

Fixpoint rstrip (s : string) : string :=
  match s with
  | EmptyString => EmptyString
  | String c s' =>
      match rstrip s' with
      | EmptyString => if isspace c then EmptyString else String c EmptyString
      | r => String c r
      end
  end.

(** [s.strip()] *)
Definition strip (s : string) : string := rstrip (lstrip s).

(** [str.lower] on one code point below 256: A-Z and the Latin-1
    capitals (all of 0xC0-0xDE but the multiplication sign). *)
Definition lower_char (c : ascii) : ascii :=
  let n := code c in
  if ((65 <=? n)%N && (n <=? 90)%N)
     || ((192 <=? n)%N && (n <=? 222)%N && negb (n =? 215)%N)
  then ascii_of_N (n + 32) else c.

Fixpoint lower (s : string) : string :=
  match s with
  | EmptyString => EmptyString
  | String c s' => String (lower_char c) (lower s')
  end.

(** Truth value testing ([__bool__] / [__len__]). *)
Class Truthy (A : Type) := truthy : A -> bool.

#[export] Instance str_truthy : Truthy string :=
  fun s => match s with EmptyString => false | String _ _ => true end.
#[export] Instance int_truthy : Truthy Z := fun z => negb (z =? 0).
#[export] Instance float_truthy : Truthy float :=
  fun x => negb (PrimFloat.eqb x 0%float).
#[export] Instance option_truthy {A} `{Truthy A} : Truthy (option A) :=
  fun o => match o with Some a => truthy a | None => false end.

(** [x or d] where [x] may be [None]. *)
Definition or_else {A} `{Truthy A} (x : option A) (d : A) : A :=
  match x with
  | Some v => if truthy v then v else d
  | None => d
  end.

(** [needle in hay] for strings. *)
Fixpoint contains (needle hay : string) : bool :=
  String.prefix needle hay
  || match hay with
     | EmptyString => false
     | String _ hay' => contains needle hay'
     end.

(** [s.startswith(c)] and [s.endswith(c)] for a one-character [c]. *)
Definition startswith (s : string) (c : ascii) : bool :=
  match s with
  | String a _ => Ascii.eqb a c
  | EmptyString => false
  end.

Fixpoint endswith (s : string) (c : ascii) : bool :=
  match s with
  | EmptyString => false
  | String a EmptyString => Ascii.eqb a c
  | String _ s' => endswith s' c
  end.

(** [s.rfind(c)] for a one-character [c]: the highest index, or -1. *)
Fixpoint rfind (s : string) (c : ascii) : Z :=
  match s with
  | EmptyString => -1
  | String a s' =>
      let r := rfind s' c in
      if 0 <=? r then r + 1 else if Ascii.eqb a c then 0 else -1
  end.

Fixpoint take (n : nat) (s : string) : string :=
  match n, s with
  | S n', String c s' => String c (take n' s')
  | _, _ => EmptyString
  end.

Fixpoint drop (n : nat) (s : string) : string :=
  match n, s with
  | S n', String _ s' => drop n' s'
  | _, _ => s
  end.

(** A slice bound, clamped as Python does (negative counts from the end). *)
Definition bound (s : string) (i : Z) : nat :=
  let len := Z.of_nat (String.length s) in
  Z.to_nat (if i <? 0 then Z.max 0 (len + i) else Z.min i len).

(** [s[:i]], [s[i:]] and [s[i:j]]. *)
Definition slice_to (s : string) (i : Z) : string := take (bound s i) s.
Definition slice_from (s : string) (i : Z) : string := drop (bound s i) s.
Definition slice (s : string) (i j : Z) : string :=
  take (bound s j - bound s i) (drop (bound s i) s).

(** [s.rsplit(c, 1)] for a one-character [c]. *)
Definition rsplit1 (s : string) (c : ascii) : list string :=
  let i := rfind s c in
  if 0 <=? i then [slice_to s i; slice_from s (i + 1)] else [s].

(** [str(n)] for an [int]. *)
Definition str (n : Z) : string := NilZero.string_of_int (Z.to_int n).

End Py.

Export (hints) Py.

(** * [os.path] (POSIX flavour) *)

Module posixpath.

(** [os.path.join(a, b)] *)
Definition join (a b : string) : string :=
  if Py.startswith b "/" then b
  else if negb (Py.truthy a) || Py.endswith a "/" then a +:+ b
  else a +:+ "/" +:+ b.

(** The loop of [genericpath._splitext] that looks for a character
    other than a dot in [p[filenameIndex:dotIndex]]; [n] counts the
    iterations left. *)
Fixpoint has_stem (n : nat) (p : string) (filenameIndex : Z) : bool :=
  match n with
  | O => false
  | S n' =>
      if negb (String.eqb (Py.slice p filenameIndex (filenameIndex + 1)) ".")
      then true
      else has_stem n' p (filenameIndex + 1)
  end.

(** [os.path.splitext(p)] *)
Definition splitext (p : string) : string * string :=
  let sepIndex := Py.rfind p "/" in
  let dotIndex := Py.rfind p "." in
  if (sepIndex <? dotIndex)
     && has_stem (Z.to_nat (dotIndex - (sepIndex + 1))) p (sepIndex + 1)
  then (Py.slice_to p dotIndex, Py.slice_from p dotIndex)
  else (p, Py.slice_to p 0).

End posixpath.

(** * SQLite text functions

    SQLAlchemy renders [col.ilike(pat)] for SQLite as
    [lower(col) LIKE lower(pat)].  SQLite's [lower] folds the 26 ASCII
    letters only; its [LIKE] has the wildcards [%] (any run of characters,
    also the empty one) and [_] (exactly one character), no escape
    character unless one is declared, and compares the other characters
    without regard to ASCII case. *)

Module sqlite.

Definition lower_char (c : ascii) : ascii :=
  let n := Py.code c in
  if (65 <=? n)%N && (n <=? 90)%N then ascii_of_N (n + 32) else c.

Fixpoint lower (s : string) : string :=
  match s with
  | EmptyString => EmptyString
  | String c s' => String (lower_char c) (lower s')
  end.

Definition same_char (c d : ascii) : bool :=
  Ascii.eqb (lower_char c) (lower_char d).

(** [s LIKE pat] *)
Fixpoint like (pat s : string) : bool :=
  match pat with
  | EmptyString =>
      match s with EmptyString => true | String _ _ => false end
  | String "%" pat' =>
      (fix any_run (t : string) : bool :=
         like pat' t
         || match t with
            | EmptyString => false
            | String _ t' => any_run t'
            end) s
  | String "_" pat' =>
      match s with EmptyString => false | String _ s' => like pat' s' end
  | String c pat' =>
      match s with
      | EmptyString => false
      | String d s' => same_char c d && like pat' s'
      end
  end.

(** [col.ilike(pat)] as SQLAlchemy compiles it for SQLite. *)
Definition ilike (col pat : string) : bool := like (lower pat) (lower col).

End sqlite.

(** * Interfaces of the libraries the application calls *)

(** [werkzeug.security] and [werkzeug.utils].  [generate_password_hash]
    draws a random salt; the salt is an explicit argument here. *)
Class Werkzeug := {
  generate_password_hash : string -> string -> string;
  check_password_hash : string -> string -> bool;
  secure_filename : string -> string
}.

(** The syntax check behind wtforms' [Email()] validator. *)
Class EmailValidator := { validate_email : string -> bool }.

(** * Models (the rows of the four tables and of the user table) *)

Module User.
Record t := mk {
  id : Z;
  email : string;
  name : string;
  password_hash : string;
  active : bool
}.
Definition check_password `{Werkzeug} (u : t) (pw : string) : bool :=
  check_password_hash (password_hash u) pw.
End User.

Module Property.
Record t := mk {
  id : Z;
  title : string;
  address : string;
  city : string;
  state : string;
  price : Z;
  for_rent : bool;
  beds : Z;
  baths : float;
  sqft : Z;
  description : string;
  created_at : Z
}.
End Property.

Module Image.
Record t := mk {
  id : Z;
  property_id : Z;
  filename : string
}.
End Image.

Module Application.
Record t := mk {
  id : Z;
  property_id : Z;
  full_name : string;
  email : string;
  phone : string;
  move_in : string;
  message : string;
  created_at : Z
}.
End Application.

Module Inquiry.
Record t := mk {
  id : Z;
  full_name : string;
  email : string;
  phone : string;
  subject : string;
  message : string;
  created_at : Z
}.
End Inquiry.

(** The database: the rows of each table, in insertion (rowid) order. *)
Record Store := mkStore {
  tbl_user : list User.t;
  tbl_property : list Property.t;
  tbl_image : list Image.t;
  tbl_application : list Application.t;
  tbl_inquiry : list Inquiry.t
}.

Definition empty_store : Store := mkStore [] [] [] [] [].

(** An [INTEGER PRIMARY KEY] left to SQLite: one more than the largest
    key in the table, 1 in an empty table. *)
Definition next_id (ids : list Z) : Z := foldr Z.max 0 ids + 1.

(** [Model.query.get(id)]: the row with that primary key. *)
Definition get {A} (key : A -> Z) (rows : list A) (i : Z) : option A :=
  List.find (fun r => key r =? i) rows.

(** [DELETE FROM table WHERE id = i] *)
Definition delete_by_id {A} (key : A -> Z) (rows : list A) (i : Z) : list A :=
  List.filter (fun r => negb (key r =? i)) rows.

(** * Requests, sessions and responses *)

Inductive Method := GET | POST.

(** What a view returns: a rendered template with the Property rows it
    was given, a redirect to an endpoint, or an aborted request. *)
Inductive Response :=
| Render (template : string) (props : list Property.t)
| Redirect (endpoint : string) (arg : option Z)
| Abort (code : Z).

(** A flashed message and its category. *)
Definition Flash : Type := string * string.

(** The session cookie of flask-login: the id of the logged-in user. *)
Definition Session : Type := option Z.

(** [load_user] and [current_user.is_authenticated], as [login_required]
    consults them. *)
Definition load_user (db : Store) (user_id : Z) : option User.t :=
  get User.id (tbl_user db) user_id.

Definition is_authenticated (db : Store) (sess : Session) : bool :=
  match sess with
  | Some uid => bool_decide (is_Some (load_user db uid))
  | None => false
  end.

(** * The ORM query object over the [property] table

    [Property.query] followed by [order_by], [filter] and [limit] builds a
    SELECT; [all()] runs it: WHERE (every criterion), then ORDER BY, then
    LIMIT.  Rows with equal timestamps stay in table order. *)

Module Query.

Inductive Ordering := created_at_desc.

Record t := mk {
  criteria : list (Property.t -> bool);
  ordering : option Ordering;
  row_limit : option nat
}.

(** [Property.query] *)
Definition query : t := mk [] None None.

(** [.order_by(Property.created_at.desc())] *)
Definition order_by (o : Ordering) (q : t) : t :=
  mk (criteria q) (Some o) (row_limit q).

(** [.filter(criterion)] *)
Definition filter (criterion : Property.t -> bool) (q : t) : t :=
  mk (criteria q ++ [criterion]) (ordering q) (row_limit q).

(** [.limit(n)] *)
Definition limit (n : nat) (q : t) : t :=
  mk (criteria q) (ordering q) (Some n).

Definition satisfies (cs : list (Property.t -> bool)) (p : Property.t) : bool :=
  forallb (fun c => c p) cs.

Fixpoint insert_desc (x : Property.t) (l : list Property.t) : list Property.t :=
  match l with
  | [] => [x]
  | y :: l' =>
      if Property.created_at y <=? Property.created_at x
      then x :: l
      else y :: insert_desc x l'
  end.

Definition sort_desc (l : list Property.t) : list Property.t :=
  foldr insert_desc [] l.

(** [.all()] *)
Definition all (db : Store) (q : t) : list Property.t :=
  let rows := List.filter (satisfies (criteria q)) (tbl_property db) in
  let rows := match ordering q with
              | Some created_at_desc => sort_desc rows
              | None => rows
              end in
  match row_limit q with
  | Some n => firstn n rows
  | None => rows
  end.

End Query.

(** [Property.query.get_or_404(prop_id)]: [None] stands for the 404. *)
Definition get_or_404 (db : Store) (prop_id : Z) : option Property.t :=
  get Property.id (tbl_property db) prop_id.

(** * Public routes *)

(** [@app.route("/")] *)
Definition home (db : Store) (args : gmap string string) : Response :=
  let q := Py.strip (default "" (args !! "q")) in
  let city := Py.strip (default "" (args !! "city")) in
  let mode := default "all" (args !! "mode") in
  let props := Query.order_by Query.created_at_desc Query.query in
  let props :=
    if Py.truthy q then
      let like := "%" +:+ q +:+ "%" in
      Query.filter (fun p => sqlite.ilike (Property.title p) like
                             || sqlite.ilike (Property.address p) like
                             || sqlite.ilike (Property.city p) like) props
    else props in
  let props :=
    if Py.truthy city then
      Query.filter (fun p => sqlite.ilike (Property.city p) ("%" +:+ city +:+ "%")) props
    else props in
  let props :=
    if String.eqb mode "rent" then
      Query.filter (fun p => Bool.eqb (Property.for_rent p) true) props
    else if String.eqb mode "sale" then
      Query.filter (fun p => Bool.eqb (Property.for_rent p) false) props
    else props in
  let props := Query.all db (Query.limit 6 props) in
  Render "index.html" props.

(** [@app.route("/properties")] *)
Definition properties (db : Store) (args : gmap string string) : Response :=
  let q := Py.strip (default "" (args !! "q")) in
  let city := Py.strip (default "" (args !! "city")) in
  let mode := default "all" (args !! "mode") in
  let props := Query.order_by Query.created_at_desc Query.query in
  let props :=
    if Py.truthy q then
      let like := "%" +:+ q +:+ "%" in
      Query.filter (fun p => sqlite.ilike (Property.title p) like
                             || sqlite.ilike (Property.address p) like
                             || sqlite.ilike (Property.city p) like) props
    else props in
  let props :=
    if Py.truthy city then
      Query.filter (fun p => sqlite.ilike (Property.city p) ("%" +:+ city +:+ "%")) props
    else props in
  let props :=
    if String.eqb mode "rent" then
      Query.filter (fun p => Bool.eqb (Property.for_rent p) true) props
    else if String.eqb mode "sale" then
      Query.filter (fun p => Bool.eqb (Property.for_rent p) false) props
    else props in
  let props := Query.all db props in
  Render "properties.html" props.

(** The [properties=props] handed to the template. *)
Definition rendered (r : Response) : list Property.t :=
  match r with
  | Render _ props => props
  | _ => []
  end.

(** [@app.route("/properties/<int:prop_id>")] *)
Definition property_detail (db : Store) (prop_id : Z) : Response :=
  match get_or_404 db prop_id with
  | None => Abort 404
  | Some prop => Render "property_detail.html" [prop]
  end.

(** [@app.route("/apply/<int:prop_id>", methods=["GET","POST"])];
    [now] is what [datetime.utcnow] returns at the insert. *)
Definition apply (db : Store) (now : Z) (prop_id : Z) (method : Method)
    (form : gmap string string) : Store * list Flash * Response :=
  match get_or_404 db prop_id with
  | None => (db, [], Abort 404)
  | Some prop =>
      match method with
      | POST =>
          let full_name := Py.strip (default "" (form !! "full_name")) in
          let email := Py.strip (default "" (form !! "email")) in
          let phone := Py.strip (default "" (form !! "phone")) in
          let move_in := Py.strip (default "" (form !! "move_in")) in
          let message := Py.strip (default "" (form !! "message")) in
          if negb (Py.truthy full_name && Py.truthy email && Py.truthy phone) then
            (db, [("Please complete all required fields.", "danger")],
             Render "apply.html" [prop])
          else
            let app_entry :=
              Application.mk (next_id (Application.id <$> tbl_application db))
                (Property.id prop) full_name email phone move_in message now in
            (mkStore (tbl_user db) (tbl_property db) (tbl_image db)
               (tbl_application db ++ [app_entry]) (tbl_inquiry db),
             [("Application submitted. We'll be in touch shortly.", "success")],
             Redirect "property_detail" (Some (Property.id prop)))
      | GET => (db, [], Render "apply.html" [prop])
      end
  end.

(** [@app.route("/contact", methods=["GET","POST"])] *)
Definition contact (db : Store) (now : Z) (method : Method)
    (form : gmap string string) : Store * list Flash * Response :=
  match method with
  | POST =>
      let full_name := Py.strip (default "" (form !! "full_name")) in
      let email := Py.strip (default "" (form !! "email")) in
      let phone := Py.strip (default "" (form !! "phone")) in
      let subject := Py.strip (default "" (form !! "subject")) in
      let message := Py.strip (default "" (form !! "message")) in
      if negb (Py.truthy full_name && Py.truthy email
               && Py.truthy subject && Py.truthy message) then
        (db, [("Please complete all required fields.", "danger")],
         Render "contact.html" [])
      else
        let row :=
          Inquiry.mk (next_id (Inquiry.id <$> tbl_inquiry db))
            full_name email phone subject message now in
        (mkStore (tbl_user db) (tbl_property db) (tbl_image db)
           (tbl_application db) (tbl_inquiry db ++ [row]),
         [("Thanks! We'll reply shortly.", "success")],
         Redirect "contact" None)
  | GET => (db, [], Render "contact.html" [])
  end.

(** * Forms (flask-wtf / wtforms)

    A field after [process]: the raw submitted text if any, the coerced
    [data], and whether coercion raised.  The validators are those the
    form classes declare. *)

Module Field.
Record t (A : Type) := mk {
  raw_data : option string;
  data : option A;
  process_errors : bool
}.
Arguments mk {A} _ _ _.
Arguments raw_data {A} _.
Arguments data {A} _.
Arguments process_errors {A} _.
End Field.

Module validators.

(** [DataRequired()]: the data is truthy, and not blank if it is text. *)
Definition DataRequired_str (f : Field.t string) : bool :=
  match Field.data f with
  | Some d => Py.truthy d && Py.truthy (Py.strip d)
  | None => false
  end.

Definition DataRequired_int (f : Field.t Z) : bool :=
  Py.truthy (Field.data f).

(** [Optional()] stops the chain (and drops earlier errors) when nothing
    or only white space was submitted. *)
Definition is_blank {A} (f : Field.t A) : bool :=
  match Field.raw_data f with
  | None => true
  | Some raw => negb (Py.truthy (Py.strip raw))
  end.

(** [Length(max=n)] *)
Definition Length_max (n : nat) (f : Field.t string) : bool :=
  match Field.data f with
  | Some d => (String.length d <=? n)%nat
  | None => true
  end.

(** [NumberRange(min=n)] *)
Definition NumberRange_min (n : Z) (f : Field.t Z) : bool :=
  match Field.data f with
  | Some d => n <=? d
  | None => false
  end.

(** [Email()] *)
Definition Email `{EmailValidator} (f : Field.t string) : bool :=
  match Field.data f with
  | Some d => validate_email d
  | None => false
  end.

(** A field whose chain starts with [DataRequired()] / [Optional()]. *)
Definition required {A} (f : Field.t A) (present rest : bool) : bool :=
  present && negb (Field.process_errors f) && rest.

Definition optional {A} (f : Field.t A) (rest : bool) : bool :=
  is_blank f || (negb (Field.process_errors f) && rest).

End validators.

(** [FlaskForm.is_submitted()] *)
Definition is_submitted (method : Method) : bool :=
  match method with POST => true | GET => false end.

Module LoginForm.
Record t := mk {
  csrf_ok : bool;
  email : Field.t string;
  password : Field.t string
}.

Definition validate `{EmailValidator} (form : t) : bool :=
  csrf_ok form
  && validators.required (email form)
       (validators.DataRequired_str (email form)) (validators.Email (email form))
  && validators.required (password form)
       (validators.DataRequired_str (password form)) true.

Definition validate_on_submit `{EmailValidator} (method : Method) (form : t) : bool :=
  is_submitted method && validate form.
End LoginForm.

(** An uploaded file ([werkzeug.datastructures.FileStorage]); a part sent
    without a file has the empty filename. *)
Module FileStorage.
Record t := mk { filename : string; stream : string }.
End FileStorage.

Module PropertyForm.
Record t := mk {
  csrf_ok : bool;
  title : Field.t string;
  address : Field.t string;
  city : Field.t string;
  state : Field.t string;
  price : Field.t Z;
  mode : Field.t string;
  beds : Field.t Z;
  baths : Field.t float;
  sqft : Field.t Z;
  description : Field.t string;
  image_files : list FileStorage.t
}.

(** [SelectField] accepts one of its choices only. *)
Definition valid_choice (f : Field.t string) : bool :=
  match Field.data f with
  | Some d => String.eqb d "rent" || String.eqb d "sale"
  | None => false
  end.

Definition validate (form : t) : bool :=
  csrf_ok form
  && validators.required (title form)
       (validators.DataRequired_str (title form))
       (validators.Length_max 150 (title form))
  && validators.required (address form)
       (validators.DataRequired_str (address form)) true
  && validators.required (city form)
       (validators.DataRequired_str (city form)) true
  && validators.required (state form)
       (validators.DataRequired_str (state form)) true
  && validators.required (price form)
       (validators.DataRequired_int (price form))
       (validators.NumberRange_min 0 (price form))
  && (negb (Field.process_errors (mode form)) && valid_choice (mode form))
  && validators.optional (beds form) true
  && validators.optional (baths form) true
  && validators.optional (sqft form) true
  && validators.optional (description form)
       (validators.Length_max 5000 (description form)).

Definition validate_on_submit (method : Method) (form : t) : bool :=
  is_submitted method && validate form.
End PropertyForm.

(** * Image ingestion *)

Definition UPLOAD_FOLDER : string := posixpath.join "static" "uploads".

Definition ALLOWED_EXTENSIONS : gset string :=
  {[ "png"; "jpg"; "jpeg"; "webp"; "gif" ]}.

(** [os.path.exists] on the upload tree, the set of paths that exist. *)
Definition path_exists (fs : gset string) (path : string) : bool :=
  bool_decide (path ∈ fs).

Definition allowed_file (filename : string) : bool :=
  Py.contains "." filename
  && match Py.rsplit1 filename "." !! 1%nat with
     | Some ext => bool_decide (Py.lower ext ∈ ALLOWED_EXTENSIONS)
     | None => false
     end.

(** The [while os.path.exists(...)] loop of [save_images]; [fuel] bounds
    the number of tests, [None] is what is left when it runs out. *)
Fixpoint rename_loop (fuel : nat) (fs : gset string)
    (dest_dir base ext filename : string) (counter : Z) : option string :=
  match fuel with
  | O => None
  | S fuel' =>
      if path_exists fs (posixpath.join dest_dir filename)
      then rename_loop fuel' fs dest_dir base ext
             (base +:+ "_" +:+ Py.str counter +:+ ext) (counter + 1)
      else Some filename
  end.

(** The "ensure unique" block: [splitext], [counter = 1], the loop.  One
    test more than there are paths is enough (see [rename_loop_total]). *)
Definition unique_filename (fs : gset string) (dest_dir filename : string)
    : option string :=
  let '(base, ext) := posixpath.splitext filename in
  rename_loop (S (size fs)) fs dest_dir base ext filename 1.

(** What one pass of [for f in files] has built up: the upload tree, the
    Image objects added to the session, and [saved]. *)
Record Ingest := mkIngest {
  ing_fs : gset string;
  ing_added : list (Z * string);
  ing_saved : list string
}.

(** The body of the [for] loop. *)
Definition save_image `{Werkzeug} (property_id : Z) (dest_dir : string)
    (st : Ingest) (f : FileStorage.t) : option Ingest :=
  if negb (Py.truthy (FileStorage.filename f)) then Some st
  else if allowed_file (FileStorage.filename f) then
    let filename := secure_filename (FileStorage.filename f) in
    filename ← unique_filename (ing_fs st) dest_dir filename;
    Some (mkIngest
            ({[ posixpath.join dest_dir filename ]} ∪ ing_fs st)
            (ing_added st ++ [(property_id, posixpath.join (Py.str property_id) filename)])
            (ing_saved st ++ [filename]))
  else Some st.

Fixpoint save_each `{Werkzeug} (property_id : Z) (dest_dir : string)
    (st : Ingest) (files : list FileStorage.t) : option Ingest :=
  match files with
  | [] => Some st
  | f :: files' =>
      st' ← save_image property_id dest_dir st f;
      save_each property_id dest_dir st' files'
  end.

(** [db.session.add(img)] for each, flushed by the one [commit]. *)
Definition insert_image (db : Store) (row : Z * string) : Store :=
  mkStore (tbl_user db) (tbl_property db)
    (tbl_image db ++ [Image.mk (next_id (Image.id <$> tbl_image db)) row.1 row.2])
    (tbl_application db) (tbl_inquiry db).

Definition commit_images (db : Store) (rows : list (Z * string)) : Store :=
  foldl insert_image db rows.

(** [save_images(files, property_id)]: the new database, the new upload
    tree and the list [saved]. *)
Definition save_images `{Werkzeug} (db : Store) (fs : gset string)
    (files : list FileStorage.t) (property_id : Z)
    : option (Store * gset string * list string) :=
  let dest_dir := posixpath.join UPLOAD_FOLDER (Py.str property_id) in
  let fs := {[ dest_dir ]} ∪ fs in
  st ← save_each property_id dest_dir (mkIngest fs [] []) files;
  Some (commit_images db (ing_added st), ing_fs st, ing_saved st).

(** * Admin routes *)

(** What [@login_required] answers to a client that is not logged in. *)
Definition unauthorized : list Flash * Response :=
  ([("Please log in to access this page.", "message")],
   Redirect "admin_login" None).

(** [User.query.filter_by(email=email).first()] *)
Definition first_by_email (db : Store) (email : string) : option User.t :=
  List.find (fun u => String.eqb (User.email u) email) (tbl_user db).

(** [@app.route("/admin/login", methods=["GET","POST"])] *)
Definition admin_login `{Werkzeug} `{EmailValidator} (db : Store) (sess : Session)
    (method : Method) (form : LoginForm.t) : Session * list Flash * Response :=
  if LoginForm.validate_on_submit method form then
    match Field.data (LoginForm.email form), Field.data (LoginForm.password form) with
    | Some email, Some password =>
        let user := first_by_email db (Py.lower email) in
        match user with
        | Some u =>
            if User.check_password u password && User.active u
            then (Some (User.id u), [], Redirect "admin_dashboard" None)
            else (sess, [("Invalid credentials.", "danger")], Render "admin/login.html" [])
        | None =>
            (sess, [("Invalid credentials.", "danger")], Render "admin/login.html" [])
        end
    | _, _ => (sess, [], Abort 500)
    end
  else (sess, [], Render "admin/login.html" []).

(** [@app.route("/admin/logout")] *)
Definition admin_logout (db : Store) (sess : Session) : Session * list Flash * Response :=
  if is_authenticated db sess then (None, [], Redirect "admin_login" None)
  else (sess, unauthorized.1, unauthorized.2).

(** [@app.route("/admin")] *)
Definition admin_dashboard (db : Store) (sess : Session) : list Flash * Response :=
  if is_authenticated db sess then
    ([], Render "admin/dashboard.html"
           (Query.all db (Query.order_by Query.created_at_desc Query.query)))
  else unauthorized.

(** The result of a route that may write rows and upload files. *)
Record Outcome := mkOutcome {
  out_db : Store;
  out_fs : gset string;
  out_flashes : list Flash;
  out_response : Response
}.

Definition insert_property (db : Store) (p : Property.t) : Store :=
  mkStore (tbl_user db) (tbl_property db ++ [p]) (tbl_image db)
    (tbl_application db) (tbl_inquiry db).

(** [@app.route("/admin/new", methods=["GET","POST"])] *)
Definition admin_new `{Werkzeug} (db : Store) (fs : gset string) (sess : Session)
    (now : Z) (method : Method) (form : PropertyForm.t) : option Outcome :=
  if negb (is_authenticated db sess) then
    Some (mkOutcome db fs unauthorized.1 unauthorized.2)
  else if PropertyForm.validate_on_submit method form then
    match Field.data (PropertyForm.title form),
          Field.data (PropertyForm.address form),
          Field.data (PropertyForm.city form),
          Field.data (PropertyForm.state form),
          Field.data (PropertyForm.price form) with
    | Some title, Some address, Some city, Some state, Some price =>
        let p :=
          Property.mk (next_id (Property.id <$> tbl_property db))
            (Py.strip title) (Py.strip address) (Py.strip city) (Py.strip state)
            price
            (if bool_decide (Field.data (PropertyForm.mode form) = Some "rent")
             then true else false)
            (Py.or_else (Field.data (PropertyForm.beds form)) 1)
            (Py.or_else (Field.data (PropertyForm.baths form)) 1%float)
            (Py.or_else (Field.data (PropertyForm.sqft form)) 500)
            (Py.or_else (Field.data (PropertyForm.description form)) "")
            now in
        let db := insert_property db p in
        '(db, fs, _) ← save_images db fs (PropertyForm.image_files form) (Property.id p);
        Some (mkOutcome db fs [("Property created.", "success")]
                (Redirect "admin_dashboard" None))
    | _, _, _, _, _ => Some (mkOutcome db fs [] (Abort 500))
    end
  else Some (mkOutcome db fs [] (Render "admin/new.html" [])).

(** The UPDATE that the [commit] of [admin_edit] issues. *)
Definition update_property (db : Store) (p : Property.t) : Store :=
  mkStore (tbl_user db)
    ((fun r => if Property.id r =? Property.id p then p else r) <$> tbl_property db)
    (tbl_image db) (tbl_application db) (tbl_inquiry db).

(** [@app.route("/admin/<int:prop_id>/edit", methods=["GET","POST"])] *)
Definition admin_edit `{Werkzeug} (db : Store) (fs : gset string) (sess : Session)
    (prop_id : Z) (method : Method) (form : PropertyForm.t) : option Outcome :=
  if negb (is_authenticated db sess) then
    Some (mkOutcome db fs unauthorized.1 unauthorized.2)
  else
    match get_or_404 db prop_id with
    | None => Some (mkOutcome db fs [] (Abort 404))
    | Some prop =>
        if PropertyForm.validate_on_submit method form then
          match Field.data (PropertyForm.title form),
                Field.data (PropertyForm.address form),
                Field.data (PropertyForm.city form),
                Field.data (PropertyForm.state form),
                Field.data (PropertyForm.price form) with
          | Some title, Some address, Some city, Some state, Some price =>
              let prop :=
                Property.mk (Property.id prop)
                  (Py.strip title) (Py.strip address) (Py.strip city) (Py.strip state)
                  price
                  (if bool_decide (Field.data (PropertyForm.mode form) = Some "rent")
                   then true else false)
                  (Py.or_else (Field.data (PropertyForm.beds form)) 1)
                  (Py.or_else (Field.data (PropertyForm.baths form)) 1%float)
                  (Py.or_else (Field.data (PropertyForm.sqft form)) 500)
                  (Py.or_else (Field.data (PropertyForm.description form)) "")
                  (Property.created_at prop) in
              let db := update_property db prop in
              '(db, fs, _) ← save_images db fs (PropertyForm.image_files form) (Property.id prop);
              Some (mkOutcome db fs [("Property updated.", "success")]
                      (Redirect "admin_dashboard" None))
          | _, _, _, _, _ => Some (mkOutcome db fs [] (Abort 500))
          end
        else Some (mkOutcome db fs [] (Render "admin/edit.html" [prop]))
    end.

(** [Property.images]: the rows the relationship loads. *)
Definition Property_images (db : Store) (prop : Property.t) : list Image.t :=
  List.filter (fun i => Image.property_id i =? Property.id prop) (tbl_image db).

Definition delete_image (db : Store) (img : Image.t) : Store :=
  mkStore (tbl_user db) (tbl_property db)
    (delete_by_id Image.id (tbl_image db) (Image.id img))
    (tbl_application db) (tbl_inquiry db).

(** [db.session.delete(prop)] with [cascade="all,delete"] on
    [Property.images]: the ORM deletes each loaded Image by primary key,
    then the Property.  No relationship leads from Property to
    Application, and SQLite does not enforce the foreign key. *)
Definition session_delete (db : Store) (prop : Property.t) : Store :=
  let db := foldl delete_image db (Property_images db prop) in
  mkStore (tbl_user db)
    (delete_by_id Property.id (tbl_property db) (Property.id prop))
    (tbl_image db) (tbl_application db) (tbl_inquiry db).

(** [@app.route("/admin/<int:prop_id>/delete", methods=["POST"])] *)
Definition admin_delete (db : Store) (sess : Session) (prop_id : Z)
    : Store * list Flash * Response :=
  if negb (is_authenticated db sess) then (db, unauthorized.1, unauthorized.2)
  else
    match get_or_404 db prop_id with
    | None => (db, [], Abort 404)
    | Some prop =>
        (session_delete db prop, [("Property deleted.", "success")],
         Redirect "admin_dashboard" None)
    end.

(** * Bootstrap *)

(** What the start-up code reads from outside: [os.environ], the salt
    [generate_password_hash] draws, and the clock. *)
Record Env := mkEnv {
  environ : gmap string string;
  salt : string;
  utcnow : Z
}.

Definition seed_admin `{Werkzeug} (env : Env) (db : Store) : Store :=
  if (length (tbl_user db) =? 0)%nat then
    let email := default "admin@example.com" (environ env !! "ADMIN_EMAIL") in
    let password := default "changeme123" (environ env !! "ADMIN_PASSWORD") in
    let u := User.mk (next_id (User.id <$> tbl_user db)) email "Admin"
               (generate_password_hash password (salt env)) true in
    mkStore (tbl_user db ++ [u]) (tbl_property db) (tbl_image db)
      (tbl_application db) (tbl_inquiry db)
  else db.

(** The [with app.app_context():] block; [db.create_all()] creates the
    missing tables and touches no row. *)
Definition bootstrap `{Werkzeug} (env : Env) (db : Store) : Store :=
  let db := seed_admin env db in
  if (length (tbl_property db) =? 0)%nat then
    let sample :=
      Property.mk (next_id (Property.id <$> tbl_property db))
        "Modern Downtown Loft" "123 Market St, Unit 504" "Los Angeles" "CA"
        2950 true 1 1%float 740
        "Sunny loft with floor-to-ceiling windows, polished concrete floors, and in-unit laundry."
        (utcnow env) in
    insert_property db sample
  else db.

(** The WHERE clause that [home] and [properties] each put together from
    [q], [city] and [mode], as one predicate on a row. *)
Definition where_clause (args : gmap string string) (p : Property.t) : bool :=
  let q := Py.strip (default "" (args !! "q")) in
  let city := Py.strip (default "" (args !! "city")) in
  let mode := default "all" (args !! "mode") in
  (if Py.truthy q then
     sqlite.ilike (Property.title p) ("%" +:+ q +:+ "%")
     || sqlite.ilike (Property.address p) ("%" +:+ q +:+ "%")
     || sqlite.ilike (Property.city p) ("%" +:+ q +:+ "%")
   else true)
  && (if Py.truthy city then sqlite.ilike (Property.city p) ("%" +:+ city +:+ "%")
      else true)
  && (if String.eqb mode "rent" then Property.for_rent p
      else if String.eqb mode "sale" then negb (Property.for_rent p)
      else true).

(** "[t] contains [q] as a substring, case-insensitively": both folded
    with SQLite's [lower], then the substring test. *)
Definition contains_ci (q t : string) : bool :=
  Py.contains (sqlite.lower q) (sqlite.lower t).

(** "[p]'s title, address or city contains [q]". *)
Definition mentions (q : string) (p : Property.t) : bool :=
  contains_ci q (Property.title p)
  || contains_ci q (Property.address p)
  || contains_ci q (Property.city p).

(** The two characters [LIKE] reads as wildcards. *)
Definition is_wildcard (c : ascii) : bool := Ascii.eqb c "%" || Ascii.eqb c "_".

Fixpoint no_wildcard (s : string) : bool :=
  match s with
  | EmptyString => true
  | String c s' => negb (is_wildcard c) && no_wildcard s'
  end.

(** A catalog view searches by substring: what it lists mentions [q], and
    a stored row that does not mention [q] is not listed. *)
Definition search_exact (view : Store -> gmap string string -> Response)
    (db : Store) (args : gmap string string) : Prop :=
  let q := Py.strip (default "" (args !! "q")) in
  (forall p, In p (rendered (view db args)) -> mentions q p = true)
  /\ (forall p, In p (tbl_property db) -> mentions q p = false ->
        ~ In p (rendered (view db args))).

(** Newest first. *)
Definition newer_or_same (a b : Property.t) : Prop :=
  Property.created_at b <= Property.created_at a.

(** The names the "ensure unique" loop tries for a sanitised [filename],
    in order: the name itself, then [base_1ext], [base_2ext], ... *)
Definition candidate (filename : string) (k : nat) : string :=
  match k with
  | O => filename
  | S _ =>
      let '(base, ext) := posixpath.splitext filename in
      base +:+ "_" +:+ Py.str (Z.of_nat k) +:+ ext
  end.

(** "Absent, [None] or equal to 0 is replaced by the default", for the
    whole-number fields, for the fractional one and for the description. *)
Definition int_or_default (x : option Z) (d : Z) : Z :=
  match x with
  | Some v => if v =? 0 then d else v
  | None => d
  end.

Definition float_or_default (x : option float) (d : float) : float :=
  match x with
  | Some v => if PrimFloat.eqb v 0%float then d else v
  | None => d
  end.

(** The row [p] holds what the form gave for the four optional fields,
    defaults filled in, and so no zero. *)
Definition defaults_hold (form : PropertyForm.t) (p : Property.t) : Prop :=
  Property.beds p = int_or_default (Field.data (PropertyForm.beds form)) 1
  /\ Property.baths p = float_or_default (Field.data (PropertyForm.baths form)) 1%float
  /\ Property.sqft p = int_or_default (Field.data (PropertyForm.sqft form)) 500
  /\ Property.description p
     = match Field.data (PropertyForm.description form) with
       | Some d => d
       | None => ""
       end
  /\ Property.beds p <> 0
  /\ PrimFloat.eqb (Property.baths p) 0%float = false
  /\ Property.sqft p <> 0.

(** * A concrete installation, for the worked examples

    Stand-ins for the libraries (a transparent "hash", a file-name
    sanitiser that keeps letters, digits, dots, dashes and underscores, an
    e-mail check that asks for an at sign) and a freshly bootstrapped
    database with one upload. *)

Module Demo.

Definition keep_char (c : ascii) : bool :=
  let n := Py.code c in
  ((48 <=? n)%N && (n <=? 57)%N) || ((65 <=? n)%N && (n <=? 90)%N)
  || ((97 <=? n)%N && (n <=? 122)%N)
  || (n =? 45)%N || (n =? 46)%N || (n =? 95)%N.

Fixpoint sanitise (s : string) : string :=
  match s with
  | EmptyString => EmptyString
  | String c s' => if keep_char c then String c (sanitise s') else sanitise s'
  end.

Definition werkzeug : Werkzeug := {|
  generate_password_hash := fun pw salt => salt +:+ "$" +:+ pw;
  check_password_hash := fun h pw =>
    String.eqb (Py.slice_from h (Py.rfind h "$" + 1)) pw;
  secure_filename := sanitise
|}.

Definition email_validator : EmailValidator :=
  {| validate_email := fun e => Py.contains "@" e |}.

Definition env : Env := mkEnv ∅ "s4lt" 1700000000.

Definition db0 : Store := @bootstrap werkzeug env empty_store.

Definition admin : Session := Some 1.

Definition text (s : string) : Field.t string := Field.mk (Some s) (Some s) false.
Definition number (s : string) (n : Z) : Field.t Z := Field.mk (Some s) (Some n) false.
Definition blank {A} : Field.t A := Field.mk (Some "") None false.

Definition photo : FileStorage.t := FileStorage.mk "Kitchen.JPG" "...".

Definition listing : PropertyForm.t :=
  PropertyForm.mk true (text " Garden Flat ") (text "9 Elm Rd") (text "Austin")
    (text "TX") (number "1800" 1800) (text "rent")
    (number "0" 0) blank blank blank [photo; photo].

Definition login (email password : string) : LoginForm.t :=
  LoginForm.mk true (text email) (text password).

(** The same installation with the administrator's address configured
    in mixed case. *)
Definition env_mixed : Env :=
  mkEnv (<["ADMIN_EMAIL" := "Admin@Example.com"]> ∅) "s4lt" 1700000000.

End Demo.

(** * Further vocabulary for the properties below *)

(** Primary keys are unique within each table. *)
Definition keys_unique (db : Store) : Prop :=
  NoDup (User.id <$> tbl_user db)
  /\ NoDup (Property.id <$> tbl_property db)
  /\ NoDup (Image.id <$> tbl_image db)
  /\ NoDup (Application.id <$> tbl_application db)
  /\ NoDup (Inquiry.id <$> tbl_inquiry db).

(** A file the ingestion loop passes over: no name, or an extension that
    is not on the allow-list. *)
Definition passed_over (f : FileStorage.t) : bool :=
  negb (Py.truthy (FileStorage.filename f))
  || negb (allowed_file (FileStorage.filename f)).

(** [mode] is neither of the two values the views filter on. *)
Definition mode_is_all (args : gmap string string) : Prop :=
  default "all" (args !! "mode") <> "rent"
  /\ default "all" (args !! "mode") <> "sale".

(** More of the concrete installation. *)
Module Scenario.

Definition loft : Property.t :=
  Property.mk 1 "Modern Downtown Loft" "123 Market St, Unit 504" "Los Angeles" "CA"
    2950 true 1 1%float 740
    "Sunny loft with floor-to-ceiling windows, polished concrete floors, and in-unit laundry."
    1700000000.

Definition q_args (k v : string) : gmap string string := <[k := v]> ∅.

Definition application_form : gmap string string :=
  <["full_name" := " Ann Lee "]>
    (<["email" := "ann@example.com"]> (<["phone" := "555-0100"]> ∅)).

Definition inquiry_form : gmap string string :=
  <["full_name" := "Bo"]>
    (<["email" := "bo@example.com"]>
       (<["subject" := "Viewing"]> (<["message" := " When? "]> ∅))).

Definition notes : FileStorage.t := FileStorage.mk "notes.txt" "...".
Definition unnamed : FileStorage.t := FileStorage.mk "" "".

(** A listing form with the price 0. *)
Definition free_listing : PropertyForm.t :=
  PropertyForm.mk true (Demo.text "Shed") (Demo.text "1 Back Ln") (Demo.text "Austin")
    (Demo.text "TX") (Demo.number "0" 0) (Demo.text "sale")
    Demo.blank Demo.blank Demo.blank Demo.blank [].

End Scenario.

(** A client that [login_required] turns away: no session cookie, or one
    naming a user id that no row carries. *)
Definition logged_out (db : Store) (sess : Session) : Prop :=
  match sess with
  | None => True
  | Some uid => forall u, In u (tbl_user db) -> User.id u <> uid
  end.


(** Why a submitted listing form does not get through
    [validate_on_submit]: it was not POSTed, the CSRF token is wrong, the
    price is missing or not positive, the type is not one of the two
    choices, or the title is missing or blank. *)
Definition listing_form_refused (method : Method) (form : PropertyForm.t) : Prop :=
  method = GET
  \/ PropertyForm.csrf_ok form = false
  \/ (forall z, Field.data (PropertyForm.price form) = Some z -> z <= 0)
  \/ PropertyForm.valid_choice (PropertyForm.mode form) = false
  \/ validators.DataRequired_str (PropertyForm.title form) = false.

(** * Worked examples of the built-ins *)

Example strip_ex : Py.strip "  loft " = "loft".
Proof. reflexivity. Qed.
Example lower_ex : Py.lower "Admin@Example.COM" = "admin@example.com".
Proof. reflexivity. Qed.
Example splitext_ex1 : posixpath.splitext "photo.tar.gz" = ("photo.tar", ".gz").
Proof. reflexivity. Qed.
Example splitext_ex2 : posixpath.splitext ".bashrc" = (".bashrc", "").
Proof. reflexivity. Qed.
Example splitext_ex3 : posixpath.splitext "a/b.c/d" = ("a/b.c/d", "").
Proof. reflexivity. Qed.
Example splitext_ex4 : posixpath.splitext "a..png" = ("a.", ".png").
Proof. reflexivity. Qed.
Example rsplit_ex : Py.rsplit1 "a.b.PNG" "." = ["a.b"; "PNG"].
Proof. reflexivity. Qed.
Example join_ex : posixpath.join UPLOAD_FOLDER (Py.str 12) = "static/uploads/12".
Proof. reflexivity. Qed.
Example allowed_ex1 : allowed_file "Kitchen.JPG" = true.
Proof. reflexivity. Qed.
Example allowed_ex2 : allowed_file "notes.txt" = false.
Proof. reflexivity. Qed.
Example like_ex1 : sqlite.ilike "Modern Downtown Loft" "%LOFT%" = true.
Proof. reflexivity. Qed.
Example like_ex2 : sqlite.ilike "Modern Downtown Loft" "%villa%" = false.
Proof. reflexivity. Qed.
Example like_ex3 : sqlite.like "a_c%" "abcdef" = true.
Proof. reflexivity. Qed.

(** * Deleting a listing *)

Section Delete.

Lemma foldl_delete_image_other (imgs : list Image.t) (db : Store) :
  tbl_user (foldl delete_image db imgs) = tbl_user db
  /\ tbl_property (foldl delete_image db imgs) = tbl_property db
  /\ tbl_application (foldl delete_image db imgs) = tbl_application db
  /\ tbl_inquiry (foldl delete_image db imgs) = tbl_inquiry db.
Proof.
  revert db. induction imgs as [|img imgs IH]; intros db; simpl.
  - repeat split.
  - destruct (IH (delete_image db img)) as (-> & -> & -> & ->). repeat split.
Qed.

Lemma foldl_delete_image_rows (imgs : list Image.t) (db : Store) (i : Image.t) :
  In i (tbl_image (foldl delete_image db imgs)) ->
  In i (tbl_image db) /\ forall j, In j imgs -> Image.id i <> Image.id j.
Proof.
  revert db. induction imgs as [|img imgs IH]; intros db Hi; simpl in *.
  - split; [assumption | tauto].
  - apply IH in Hi as [Hin Hne]. simpl in Hin. unfold delete_by_id in Hin.
    apply filter_In in Hin as [Hin Hid].
    split; [assumption|].
    intros j [<- | Hj]; [|auto].
    apply negb_true_iff, Z.eqb_neq in Hid. exact Hid.
Qed.

Lemma get_none_iff {A} (key : A -> Z) (rows : list A) (i : Z) :
  get key rows i = None <-> forall r, In r rows -> key r <> i.
Proof.
  unfold get. split.
  - intros Hn r Hr. apply (find_none _ _ Hn) in Hr. lia.
  - intros Hall. induction rows as [|r rows IH]; simpl; [reflexivity|].
    destruct (key r =? i) eqn:E.
    + apply Z.eqb_eq in E. exfalso. apply (Hall r); [now left | exact E].
    + apply IH. intros r' Hr'. apply Hall. now right.
Qed.

Lemma get_some_id {A} (key : A -> Z) (rows : list A) (i : Z) (r : A) :
  get key rows i = Some r -> In r rows /\ key r = i.
Proof.
  unfold get. intros H. apply find_some in H as [Hin Hk]. split; [assumption | lia].
Qed.

Lemma delete_by_id_gone {A} (key : A -> Z) (rows : list A) (i : Z) (r : A) :
  In r (delete_by_id key rows i) -> In r rows /\ key r <> i.
Proof.
  unfold delete_by_id. intros H. apply filter_In in H as [Hin Hk].
  split; [assumption|]. apply negb_true_iff, Z.eqb_neq in Hk. exact Hk.
Qed.

Lemma session_delete_property_gone (db : Store) (prop r : Property.t) :
  In r (tbl_property (session_delete db prop)) -> Property.id r <> Property.id prop.
Proof.
  unfold session_delete. simpl. intros H. apply delete_by_id_gone in H. tauto.
Qed.

Lemma session_delete_images_gone (db : Store) (prop : Property.t) (i : Image.t) :
  In i (tbl_image (session_delete db prop)) -> Image.property_id i <> Property.id prop.
Proof.
  unfold session_delete. simpl. intros H Heq.
  apply foldl_delete_image_rows in H as [Hin Hne].
  apply (Hne i); [|reflexivity].
  unfold Property_images. apply filter_In. split; [assumption | lia].
Qed.

Lemma session_delete_applications (db : Store) (prop : Property.t) :
  tbl_application (session_delete db prop) = tbl_application db.
Proof.
  unfold session_delete. simpl.
  now destruct (foldl_delete_image_other (Property_images db prop) db) as (_ & _ & -> & _).
Qed.

End Delete.

(** C1: for an authenticated admin and every stored Property [p], the POST
    to /admin/<p.id>/delete leaves no Property row with that id and no
    Image row whose [property_id] is that id, and the detail lookup for
    the id then ends in 404; deleting an id that no row carries changes
    nothing and ends in 404 itself. *)
Theorem admin_delete_cascades (db : Store) (sess : Session) :
  is_authenticated db sess = true ->
  (forall p, In p (tbl_property db) ->
     let '(db', _, response) := admin_delete db sess (Property.id p) in
     response = Redirect "admin_dashboard" None
     /\ (forall r, In r (tbl_property db') -> Property.id r <> Property.id p)
     /\ (forall i, In i (tbl_image db') -> Image.property_id i <> Property.id p)
     /\ property_detail db' (Property.id p) = Abort 404)
  /\ (forall prop_id, (forall r, In r (tbl_property db) -> Property.id r <> prop_id) ->
        admin_delete db sess prop_id = (db, [], Abort 404)).
Proof.
  intros Hauth. split.
  - intros p Hp. unfold admin_delete. rewrite Hauth. simpl.
    destruct (get_or_404 db (Property.id p)) as [prop|] eqn:Hget.
    + apply get_some_id in Hget as [_ Hid].
      assert (Hgone : forall r, In r (tbl_property (session_delete db prop)) ->
                                Property.id r <> Property.id p).
      { intros r Hr. rewrite <- Hid. now apply session_delete_property_gone in Hr. }
      split; [reflexivity|]. split; [exact Hgone|]. split.
      * intros i Hi. rewrite <- Hid. now apply session_delete_images_gone in Hi.
      * unfold property_detail, get_or_404.
        now rewrite (proj2 (get_none_iff Property.id _ _) Hgone).
    + exfalso. unfold get_or_404 in Hget.
      rewrite get_none_iff in Hget. now apply (Hget p).
  - intros prop_id Hnone. unfold admin_delete, get_or_404. rewrite Hauth. simpl.
    now rewrite (proj2 (get_none_iff Property.id _ _) Hnone).
Qed.

(** C10: whatever the delete route does, the Application table is the
    same afterwards, row for row; so are the users and the inquiries. *)
Theorem admin_delete_keeps_applications (db : Store) (sess : Session) (prop_id : Z) :
  let db' := (admin_delete db sess prop_id).1.1 in
  tbl_application db' = tbl_application db
  /\ tbl_user db' = tbl_user db
  /\ tbl_inquiry db' = tbl_inquiry db.
Proof.
  unfold admin_delete.
  destruct (negb (is_authenticated db sess)); [repeat split|].
  destruct (get_or_404 db prop_id) as [prop|]; [|repeat split].
  simpl. unfold session_delete. simpl.
  destruct (foldl_delete_image_other (Property_images db prop) db) as (-> & _ & -> & ->).
  repeat split.
Qed.

(** * Public submission *)

(** C7: for an existing Property, a POST to /apply/<id> whose full name,
    e-mail or phone is empty once stripped answers with the application
    form and the error flash, and the database is the one it started
    from. *)
Theorem apply_rejects_blank_fields (db : Store) (now prop_id : Z)
    (form : gmap string string) (prop : Property.t) :
  get_or_404 db prop_id = Some prop ->
  Py.strip (default "" (form !! "full_name")) = ""
  \/ Py.strip (default "" (form !! "email")) = ""
  \/ Py.strip (default "" (form !! "phone")) = "" ->
  apply db now prop_id POST form
  = (db, [("Please complete all required fields.", "danger")], Render "apply.html" [prop]).
Proof.
  intros Hget Hblank. unfold apply. rewrite Hget.
  destruct Hblank as [-> | [-> | ->]]; simpl;
    rewrite ?andb_false_r; reflexivity.
Qed.

Lemma apply_rejects_blank_fields_witness :
  get_or_404 Demo.db0 1 = Some (Property.mk 1
      "Modern Downtown Loft" "123 Market St, Unit 504" "Los Angeles" "CA"
      2950 true 1 1%float 740
      "Sunny loft with floor-to-ceiling windows, polished concrete floors, and in-unit laundry."
      1700000000)
  /\ (Py.strip (default "" ((<["full_name" := "Ann"]> (<["email" := "ann@example.com"]> (<["phone" := "   "]> ∅)) : gmap string string) !! "phone")) = "")
  /\ (apply Demo.db0 5 1 POST (<["full_name" := "Ann"]> (<["email" := "ann@example.com"]> (<["phone" := "   "]> ∅))))
     = (Demo.db0, [("Please complete all required fields.", "danger")],
        Render "apply.html" [Property.mk 1
      "Modern Downtown Loft" "123 Market St, Unit 504" "Los Angeles" "CA"
      2950 true 1 1%float 740
      "Sunny loft with floor-to-ceiling windows, polished concrete floors, and in-unit laundry."
      1700000000]).
Proof.
  split; [reflexivity|]. split; [reflexivity|].
  apply apply_rejects_blank_fields; [reflexivity|].
  right; right; reflexivity.
Defined.

Lemma admin_delete_cascades_witness :
  is_authenticated Demo.db0 Demo.admin = true
  /\ ((forall p, In p (tbl_property Demo.db0) ->
        let '(db', _, response) := admin_delete Demo.db0 Demo.admin (Property.id p) in
        response = Redirect "admin_dashboard" None
        /\ (forall r, In r (tbl_property db') -> Property.id r <> Property.id p)
        /\ (forall i, In i (tbl_image db') -> Image.property_id i <> Property.id p)
        /\ property_detail db' (Property.id p) = Abort 404)
      /\ (forall prop_id,
            (forall r, In r (tbl_property Demo.db0) -> Property.id r <> prop_id) ->
            admin_delete Demo.db0 Demo.admin prop_id = (Demo.db0, [], Abort 404))).
Proof.
  split; [reflexivity|].
  apply (admin_delete_cascades Demo.db0 Demo.admin). reflexivity.
Defined.

(** * Bootstrap *)

Section Bootstrap.
Context `{Werkzeug}.

Lemma seed_admin_users (env : Env) (db : Store) :
  tbl_user (seed_admin env db) <> [].
Proof.
  unfold seed_admin. destruct (tbl_user db) as [|u us] eqn:E; simpl.
  - discriminate.
  - rewrite E. discriminate.
Qed.

Lemma seed_admin_seeded (env : Env) (db : Store) :
  tbl_user db <> [] -> seed_admin env db = db.
Proof.
  unfold seed_admin. destruct (tbl_user db); [congruence | reflexivity].
Qed.

Lemma bootstrap_users (env : Env) (db : Store) :
  tbl_user (bootstrap env db) = tbl_user (seed_admin env db).
Proof.
  unfold bootstrap. destruct (length (tbl_property (seed_admin env db)) =? 0)%nat; reflexivity.
Qed.

Lemma bootstrap_properties (env : Env) (db : Store) :
  tbl_property (bootstrap env db) <> [].
Proof.
  unfold bootstrap. destruct (tbl_property (seed_admin env db)) as [|p ps] eqn:E; simpl.
  - rewrite E. discriminate.
  - rewrite E. discriminate.
Qed.

Lemma seed_admin_properties (env : Env) (db : Store) :
  tbl_property (seed_admin env db) = tbl_property db.
Proof. unfold seed_admin. destruct (length (tbl_user db) =? 0)%nat; reflexivity. Qed.

End Bootstrap.

(** C8: a second run of the bootstrap, whatever the environment, the salt
    and the clock are by then, returns the store the first run left: no
    second admin, no second sample listing. *)
Theorem bootstrap_idempotent `{Werkzeug} (env env' : Env) (db : Store) :
  bootstrap env' (bootstrap env db) = bootstrap env db
  /\ length (tbl_user (bootstrap env' (bootstrap env db))) = length (tbl_user (bootstrap env db))
  /\ length (tbl_property (bootstrap env' (bootstrap env db)))
     = length (tbl_property (bootstrap env db)).
Proof.
  assert (E : bootstrap env' (bootstrap env db) = bootstrap env db).
  { unfold bootstrap at 1.
    rewrite (seed_admin_seeded env' (bootstrap env db)).
    - pose proof (bootstrap_properties env db) as Hp.
      destruct (tbl_property (bootstrap env db)); [congruence | reflexivity].
    - rewrite bootstrap_users. apply seed_admin_users. }
  rewrite E. repeat split.
Qed.

(** * Signing in *)

(** C2: a login submission that reaches the credential check and fails it,
    be it because no user carries the (lower-cased) address, because the
    password check fails, or because the user is not active, gets one and
    the same answer: the login page with the flash "Invalid credentials.",
    and the session it came with. *)
Theorem admin_login_failure_uniform `{Werkzeug} `{EmailValidator}
    (db : Store) (sess : Session) (form : LoginForm.t) (email password : string) :
  LoginForm.validate form = true ->
  Field.data (LoginForm.email form) = Some email ->
  Field.data (LoginForm.password form) = Some password ->
  first_by_email db (Py.lower email) = None
  \/ (exists u, first_by_email db (Py.lower email) = Some u
                /\ (User.check_password u password = false \/ User.active u = false)) ->
  admin_login db sess POST form
  = (sess, [("Invalid credentials.", "danger")], Render "admin/login.html" []).
Proof.
  intros Hv He Hp Hfail. unfold admin_login, LoginForm.validate_on_submit.
  rewrite Hv, He, Hp. simpl.
  destruct Hfail as [-> | (u & -> & [Hc | Ha])]; [reflexivity| |].
  - rewrite Hc. reflexivity.
  - rewrite Ha, andb_false_r. reflexivity.
Qed.

Lemma admin_login_failure_uniform_witness :
  @LoginForm.validate Demo.email_validator (Demo.login "admin@example.com" "letmein") = true
  /\ Field.data (LoginForm.email (Demo.login "admin@example.com" "letmein"))
     = Some "admin@example.com"
  /\ Field.data (LoginForm.password (Demo.login "admin@example.com" "letmein"))
     = Some "letmein"
  /\ (first_by_email Demo.db0 (Py.lower "admin@example.com") = None
      \/ (exists u, first_by_email Demo.db0 (Py.lower "admin@example.com") = Some u
                    /\ (@User.check_password Demo.werkzeug u "letmein" = false
                        \/ User.active u = false)))
  /\ @admin_login Demo.werkzeug Demo.email_validator Demo.db0 None POST
       (Demo.login "admin@example.com" "letmein")
     = (None, [("Invalid credentials.", "danger")], Render "admin/login.html" []).
Proof.
  assert (Hcase :
    first_by_email Demo.db0 (Py.lower "admin@example.com") = None
    \/ (exists u, first_by_email Demo.db0 (Py.lower "admin@example.com") = Some u
                  /\ (@User.check_password Demo.werkzeug u "letmein" = false
                      \/ User.active u = false))).
  { right. eexists. split; [reflexivity|]. left. reflexivity. }
  split; [reflexivity|]. split; [reflexivity|]. split; [reflexivity|].
  split; [exact Hcase|].
  apply (@admin_login_failure_uniform Demo.werkzeug Demo.email_validator
           Demo.db0 None _ "admin@example.com" "letmein");
    [reflexivity | reflexivity | reflexivity | exact Hcase].
Defined.

(** The lookup is insensitive to the case of what is typed as long as the
    address was stored in lower case. *)
Lemma admin_login_lower_case_stored `{Werkzeug} `{EmailValidator}
    (db : Store) (sess : Session) (form : LoginForm.t) (u : User.t)
    (email password : string) :
  LoginForm.validate form = true ->
  Field.data (LoginForm.email form) = Some email ->
  Field.data (LoginForm.password form) = Some password ->
  first_by_email db (User.email u) = Some u ->
  Py.lower email = User.email u ->
  User.check_password u password = true ->
  User.active u = true ->
  admin_login db sess POST form = (Some (User.id u), [], Redirect "admin_dashboard" None).
Proof.
  intros Hv He Hp Hu Hl Hc Ha. unfold admin_login, LoginForm.validate_on_submit.
  rewrite Hv, He, Hp. simpl. rewrite Hl, Hu, Hc, Ha. reflexivity.
Qed.

(** C3, at the failing input: the administrator is configured as
    Admin@Example.com, seeded active with the default password; signing in
    as admin@example.com with that password finds no user, whatever the
    hash functions and the e-mail syntax check are: no session, no
    redirect to the dashboard.  Typing the address exactly as configured
    fares no better. *)
Theorem admin_login_mixed_case_seed `{Werkzeug} `{EmailValidator} :
  let db := bootstrap Demo.env_mixed empty_store in
  (exists u, tbl_user db = [u]
             /\ User.email u = "Admin@Example.com" /\ User.active u = true
             /\ User.password_hash u = generate_password_hash "changeme123" "s4lt")
  /\ first_by_email db (Py.lower "admin@example.com") = None
  /\ (admin_login db None POST (Demo.login "admin@example.com" "changeme123")).1.1 = None
  /\ (admin_login db None POST (Demo.login "Admin@Example.com" "changeme123")).1.1 = None.
Proof.
  split; [eexists; repeat split|].
  split; [reflexivity|].
  unfold admin_login.
  split.
  - destruct (LoginForm.validate_on_submit POST _); reflexivity.
  - destruct (LoginForm.validate_on_submit POST _); reflexivity.
Qed.

(** * The catalog *)

Section Catalog.

Import Query.

Lemma insert_desc_perm (x : Property.t) (l : list Property.t) :
  Permutation (insert_desc x l) (x :: l).
Proof.
  induction l as [|y l IH]; simpl; [reflexivity|].
  destruct (Property.created_at y <=? Property.created_at x); [reflexivity|].
  rewrite IH. apply perm_swap.
Qed.

Lemma sort_desc_perm (l : list Property.t) : Permutation (sort_desc l) l.
Proof.
  induction l as [|x l IH]; simpl; [reflexivity|].
  fold (sort_desc l). rewrite insert_desc_perm. now constructor.
Qed.

Lemma insert_desc_sorted (x : Property.t) (l : list Property.t) :
  StronglySorted newer_or_same l -> StronglySorted newer_or_same (insert_desc x l).
Proof.
  induction 1 as [|y l Hs IH Hall]; simpl.
  - repeat constructor.
  - destruct (Property.created_at y <=? Property.created_at x) eqn:E.
    + apply Z.leb_le in E. constructor; [now constructor|].
      constructor; [exact E|].
      eapply List.Forall_impl; [|exact Hall].
      intros z Hz. unfold newer_or_same in *. lia.
    + apply Z.leb_gt in E. constructor; [exact IH|].
      rewrite List.Forall_forall. intros z Hz.
      apply (Permutation_in _ (insert_desc_perm x l)) in Hz.
      destruct Hz as [<- | Hz].
      * unfold newer_or_same. lia.
      * rewrite List.Forall_forall in Hall. now apply Hall.
Qed.

Lemma sort_desc_sorted (l : list Property.t) : StronglySorted newer_or_same (sort_desc l).
Proof.
  induction l as [|x l IH]; simpl; [constructor|].
  now apply insert_desc_sorted.
Qed.

Lemma eqb_true_r (b : bool) : Bool.eqb b true = b.
Proof. now destruct b. Qed.

Lemma eqb_false_r (b : bool) : Bool.eqb b false = negb b.
Proof. now destruct b. Qed.

(** The query either view builds has [where_clause] for its WHERE. *)
Ltac same_where :=
  apply filter_ext; intros p; unfold satisfies; simpl;
  rewrite ?eqb_true_r, ?eqb_false_r, ?andb_true_r, ?andb_assoc, ?andb_true_r;
  reflexivity.

Lemma properties_rows (db : Store) (args : gmap string string) :
  rendered (properties db args)
  = sort_desc (List.filter (where_clause args) (tbl_property db)).
Proof.
  unfold properties, where_clause, all. simpl.
  destruct (Py.truthy (Py.strip (default "" (args !! "q"))));
    destruct (Py.truthy (Py.strip (default "" (args !! "city"))));
    destruct (String.eqb (default "all" (args !! "mode")) "rent");
    try destruct (String.eqb (default "all" (args !! "mode")) "sale");
    simpl; f_equal; same_where.
Qed.

Lemma home_rows (db : Store) (args : gmap string string) :
  rendered (home db args)
  = firstn 6 (sort_desc (List.filter (where_clause args) (tbl_property db))).
Proof.
  unfold home, where_clause, all. simpl.
  destruct (Py.truthy (Py.strip (default "" (args !! "q"))));
    destruct (Py.truthy (Py.strip (default "" (args !! "city"))));
    destruct (String.eqb (default "all" (args !! "mode")) "rent");
    try destruct (String.eqb (default "all" (args !! "mode")) "sale");
    simpl; do 2 f_equal; same_where.
Qed.

End Catalog.

(** C4: for every store and every [q], [city] and [mode], what the home
    view lists is the first six rows of what /properties lists; so it has
    at most six rows (exactly the smaller of six and the number of
    matches), while /properties lists every row that passes the filters,
    each once, newest first. *)
Theorem home_first_six_of_properties (db : Store) (args : gmap string string) :
  rendered (home db args) = firstn 6 (rendered (properties db args))
  /\ (length (rendered (home db args)) <= 6)%nat
  /\ length (rendered (home db args))
     = Nat.min 6 (length (List.filter (where_clause args) (tbl_property db)))
  /\ Permutation (rendered (properties db args))
       (List.filter (where_clause args) (tbl_property db))
  /\ StronglySorted newer_or_same (rendered (properties db args)).
Proof.
  rewrite home_rows, properties_rows.
  split; [reflexivity|].
  split; [rewrite length_firstn; lia|].
  split; [rewrite length_firstn; now rewrite (Permutation_length (sort_desc_perm _))|].
  split; [apply sort_desc_perm | apply sort_desc_sorted].
Qed.

(** * Strings *)

Section Strings.

#[local] Arguments String.append : simpl nomatch.

Lemma str_app_nil_r (s : string) : s +:+ "" = s.
Proof. induction s as [|c s IH]; simpl; [reflexivity | now rewrite IH]. Qed.

Lemma str_app_assoc (a b c : string) : (a +:+ b) +:+ c = a +:+ (b +:+ c).
Proof. induction a as [|x a IH]; simpl; [reflexivity | now rewrite IH]. Qed.

Lemma str_length_app (a b : string) :
  String.length (a +:+ b) = (String.length a + String.length b)%nat.
Proof. induction a as [|x a IH]; simpl; [reflexivity | now rewrite IH]. Qed.

Lemma str_app_inv_tail (a b s : string) : a +:+ s = b +:+ s -> a = b.
Proof.
  revert b. induction a as [|x a IH]; intros [|y b] E; simpl in E.
  - reflexivity.
  - apply (f_equal String.length) in E. simpl in E. rewrite str_length_app in E. lia.
  - apply (f_equal String.length) in E. simpl in E. rewrite str_length_app in E. lia.
  - injection E as -> E. f_equal. now apply IH.
Qed.

Lemma truthy_str (s : string) : Py.truthy s = true <-> s <> "".
Proof. destruct s; cbv; split; congruence. Qed.

Lemma prefix_iff (a b : string) :
  String.prefix a b = true <-> exists c, b = a +:+ c.
Proof.
  revert b. induction a as [|x a IH]; intros b.
  - destruct b; simpl; split; eauto.
  - destruct b as [|y b]; simpl.
    + split; [discriminate | intros [c Hc]; discriminate].
    + destruct (ascii_dec x y) as [->|Hne].
      * rewrite IH. split; intros [c Hc]; exists c; [now subst | now injection Hc].
      * split; [discriminate|]. intros [c Hc]. injection Hc. congruence.
Qed.

Lemma contains_iff (a b : string) :
  Py.contains a b = true <-> exists pre post, b = pre +:+ a +:+ post.
Proof.
  induction b as [|y b IH].
  - change (Py.contains a "") with (String.prefix a "" || false).
    rewrite orb_false_r, prefix_iff. split.
    + intros [c Hc]. now exists "", c.
    + intros (pre & post & H). destruct pre; [|discriminate]. now exists post.
  - change (Py.contains a (String y b))
      with (String.prefix a (String y b) || Py.contains a b).
    rewrite orb_true_iff, prefix_iff, IH. split.
    + intros [[c Hc] | (pre & post & H)].
      * now exists "", c.
      * exists (String y pre), post. simpl. now subst.
    + intros (pre & post & H). destruct pre as [|x pre]; simpl in H.
      * left. now exists post.
      * right. injection H as -> ->. now exists pre, post.
Qed.

End Strings.

(** * [LIKE] against a pattern without wildcards *)

Section Like.

Import sqlite.
#[local] Arguments String.append : simpl nomatch.

Ltac by_cases c := destruct c as [[] [] [] [] [] [] [] []].

Lemma lower_char_idem (c : ascii) : lower_char (lower_char c) = lower_char c.
Proof. by_cases c; reflexivity. Qed.

Lemma is_wildcard_lower (c : ascii) : is_wildcard (lower_char c) = is_wildcard c.
Proof. by_cases c; reflexivity. Qed.

Lemma lower_app (a b : string) : lower (a +:+ b) = lower a +:+ lower b.
Proof. induction a as [|x a IH]; simpl; [reflexivity | now rewrite IH]. Qed.

Lemma lower_idem (s : string) : lower (lower s) = lower s.
Proof.
  induction s as [|c s IH]; simpl; [reflexivity|].
  now rewrite lower_char_idem, IH.
Qed.

Lemma no_wildcard_lower (s : string) : no_wildcard (lower s) = no_wildcard s.
Proof.
  induction s as [|c s IH]; simpl; [reflexivity|].
  now rewrite is_wildcard_lower, IH.
Qed.

Lemma same_char_iff (c d : ascii) : same_char c d = true <-> lower_char c = lower_char d.
Proof. unfold same_char. apply Ascii.eqb_eq. Qed.

(** The three kinds of pattern head, as equations. *)
Lemma like_percent (p s : string) :
  like (String "%" p) s
  = like p s || match s with
                | EmptyString => false
                | String _ s' => like (String "%" p) s'
                end.
Proof. destruct s; reflexivity. Qed.

Lemma like_underscore (p s : string) :
  like (String "_" p) s
  = match s with EmptyString => false | String _ s' => like p s' end.
Proof. reflexivity. Qed.

Lemma like_char (c : ascii) (p s : string) :
  is_wildcard c = false ->
  like (String c p) s
  = match s with
    | EmptyString => false
    | String d s' => same_char c d && like p s'
    end.
Proof. intros H. by_cases c; try discriminate H; reflexivity. Qed.

Lemma like_percent_only (s : string) : like "%" s = true.
Proof.
  induction s as [|c s IH]; [reflexivity|].
  rewrite like_percent. simpl. exact IH.
Qed.

Lemma like_any_run (p s : string) :
  like (String "%" p) s = true <-> exists pre t, s = pre +:+ t /\ like p t = true.
Proof.
  induction s as [|c s IH]; rewrite like_percent.
  - rewrite orb_false_r. split.
    + intros H. now exists "", "".
    + intros (pre & t & E & H). destruct pre; [|discriminate]. simpl in E. now subst.
  - rewrite orb_true_iff, IH. split.
    + intros [H | (pre & t & -> & H)].
      * now exists "", (String c s).
      * now exists (String c pre), t.
    + intros (pre & t & E & H). destruct pre as [|x pre]; simpl in E.
      * left. now subst.
      * right. injection E as -> ->. now exists pre, t.
Qed.

Lemma like_literal_then_any (q t : string) :
  no_wildcard q = true ->
  like (q +:+ "%") t = true <-> exists m post, t = m +:+ post /\ lower m = lower q.
Proof.
  revert t. induction q as [|c q IH]; intros t Hq.
  - change ("" +:+ "%") with "%".
    rewrite like_percent_only. split; [|reflexivity]. intros _. now exists "", t.
  - change (String c q +:+ "%") with (String c (q +:+ "%")).
    simpl in Hq. apply andb_true_iff in Hq as [Hc Hq].
    apply negb_true_iff in Hc. rewrite (like_char _ _ _ Hc).
    destruct t as [|d t].
    + split; [discriminate|]. intros (m & post & E & Hl).
      destruct m; simpl in *; discriminate.
    + rewrite andb_true_iff, same_char_iff, (IH _ Hq). split.
      * intros [Hcd (m & post & -> & Hl)]. exists (String d m), post.
        split; [reflexivity|]. simpl. now rewrite Hl, Hcd.
      * intros (m & post & E & Hl). destruct m as [|d' m]; simpl in Hl; [discriminate|].
        simpl in E. injection E as <- ->. injection Hl as Hcd Hl.
        split; [now symmetry|]. now exists m, post.
Qed.

(** With no wildcard in [q], [col ILIKE '%q%'] is the case-insensitive
    substring test. *)
Lemma ilike_is_contains (q col : string) :
  no_wildcard q = true ->
  ilike col ("%" +:+ q +:+ "%") = contains_ci q col.
Proof.
  intros Hq. apply Bool.eq_iff_eq_true.
  unfold ilike, contains_ci.
  change ("%" +:+ q +:+ "%") with (String "%" (q +:+ "%")).
  change (lower (String "%" (q +:+ "%"))) with (String "%" (lower (q +:+ "%"))).
  rewrite lower_app. change (lower "%") with "%".
  rewrite like_any_run, contains_iff. split.
  - intros (pre & t & E & H).
    apply like_literal_then_any in H as (m & post & -> & Hl);
      [|now rewrite no_wildcard_lower].
    rewrite lower_idem in Hl.
    apply (f_equal lower) in E. rewrite lower_idem, !lower_app, Hl in E.
    now exists (lower pre), (lower post).
  - intros (pre & post & E). exists pre, (lower q +:+ post). split; [exact E|].
    apply like_literal_then_any; [now rewrite no_wildcard_lower|].
    exists (lower q), post. split; reflexivity.
Qed.

Lemma where_clause_mentions (args : gmap string string) (p : Property.t) :
  let q := Py.strip (default "" (args !! "q")) in
  q <> "" -> no_wildcard q = true ->
  where_clause args p = true -> mentions q p = true.
Proof.
  intros q Hne Hq. unfold where_clause. fold q.
  apply truthy_str in Hne. rewrite Hne.
  rewrite !(ilike_is_contains q) by exact Hq.
  unfold mentions. intros H. apply andb_true_iff in H as [H _].
  apply andb_true_iff in H as [H _]. exact H.
Qed.

Lemma In_firstn {A} (n : nat) (l : list A) (x : A) : In x (firstn n l) -> In x l.
Proof.
  revert l. induction n as [|n IH]; intros [|y l] H; simpl in *; try tauto.
  destruct H as [->|H]; [now left | right; now apply IH].
Qed.

Lemma properties_listed (db : Store) (args : gmap string string) (p : Property.t) :
  In p (rendered (properties db args))
  <-> In p (tbl_property db) /\ where_clause args p = true.
Proof.
  rewrite properties_rows, <- filter_In. split; intros H.
  - eapply Permutation_in; [apply sort_desc_perm | exact H].
  - eapply Permutation_in; [symmetry; apply sort_desc_perm | exact H].
Qed.

Lemma home_listed (db : Store) (args : gmap string string) (p : Property.t) :
  In p (rendered (home db args)) -> In p (rendered (properties db args)).
Proof. rewrite home_rows, properties_rows. apply In_firstn. Qed.

End Like.

(** C5, as the code has it: for every search string that is not empty once
    stripped and holds neither [%] nor [_], every row either catalog view
    lists has the string, ASCII case aside, inside its title, address or
    city, and a stored row with the string in none of the three is not
    listed. *)
Theorem search_by_substring (db : Store) (args : gmap string string) :
  Py.strip (default "" (args !! "q")) <> "" ->
  no_wildcard (Py.strip (default "" (args !! "q"))) = true ->
  search_exact properties db args /\ search_exact home db args.
Proof.
  intros Hne Hq.
  assert (Hsound : forall p, In p (rendered (properties db args)) ->
                             mentions (Py.strip (default "" (args !! "q"))) p = true).
  { intros p Hp. apply properties_listed in Hp as [_ Hw].
    now apply where_clause_mentions. }
  split; split.
  - exact Hsound.
  - intros p _ Hno Hp. apply Hsound in Hp. congruence.
  - intros p Hp. now apply Hsound, home_listed.
  - intros p _ Hno Hp. apply home_listed, Hsound in Hp. congruence.
Qed.

Lemma search_by_substring_witness :
  Py.strip (default "" ((<["q" := " LOFT "]> ∅ : gmap string string) !! "q")) <> ""
  /\ no_wildcard (Py.strip (default "" ((<["q" := " LOFT "]> ∅ : gmap string string) !! "q")))
     = true
  /\ (search_exact properties Demo.db0 (<["q" := " LOFT "]> ∅)
      /\ search_exact home Demo.db0 (<["q" := " LOFT "]> ∅)).
Proof.
  split; [discriminate|]. split; [reflexivity|].
  apply (search_by_substring Demo.db0 (<["q" := " LOFT "]> ∅)); [discriminate | reflexivity].
Defined.

(** C5 as stated fails: the search string [_] is not empty, the sample
    listing is returned for it, and no field of that listing holds an
    underscore. *)
Lemma search_underscore_lists_all :
  Py.strip (default "" ((<["q" := "_"]> ∅ : gmap string string) !! "q")) <> ""
  /\ ~ search_exact properties Demo.db0 (<["q" := "_"]> ∅).
Proof.
  split; [discriminate|].
  intros [Hsound _].
  assert (Hin : exists p, In p (rendered (properties Demo.db0 (<["q" := "_"]> ∅)))
                          /\ mentions "_" p = false).
  { eexists. split; [left; reflexivity | reflexivity]. }
  destruct Hin as (p & Hp & Hno).
  apply Hsound in Hp. change (Py.strip (default "" (<["q" := "_"]> ∅ !! "q"))) with "_" in Hp.
  congruence.
Qed.

(** * Decimal numerals, slices and paths *)

Section Paths.

#[local] Arguments String.append : simpl nomatch.

Lemma to_int_proper (z : Z) :
  Z.to_int z <> Decimal.Pos Decimal.Nil /\ Z.to_int z <> Decimal.Neg Decimal.Nil.
Proof.
  destruct z as [|p|p]; simpl; split; try discriminate;
    intros E; injection E; apply DecimalPos.Unsigned.to_uint_nonnil.
Qed.

Lemma str_inj (a b : Z) : Py.str a = Py.str b -> a = b.
Proof.
  unfold Py.str. intros E.
  destruct (to_int_proper a) as [Ha1 Ha2], (to_int_proper b) as [Hb1 Hb2].
  pose proof (NilZero.isi _ Ha1 Ha2) as Ia.
  pose proof (NilZero.isi _ Hb1 Hb2) as Ib.
  rewrite E in Ia. rewrite Ia in Ib. injection Ib. apply DecimalZ.to_int_inj.
Qed.

Lemma take_drop (n : nat) (s : string) : Py.take n s +:+ Py.drop n s = s.
Proof.
  revert s. induction n as [|n IH]; intros [|c s]; simpl; try reflexivity.
  now rewrite IH.
Qed.

Lemma rfind_range (s : string) (c : ascii) :
  -1 <= Py.rfind s c < Z.of_nat (String.length s).
Proof.
  induction s as [|a s IH]; simpl Py.rfind; simpl String.length; [lia|].
  destruct (0 <=? Py.rfind s c) eqn:E; [lia|].
  destruct (Ascii.eqb a c); lia.
Qed.

Lemma rfind_drop (s : string) (c : ascii) :
  0 <= Py.rfind s c ->
  exists t, Py.drop (Z.to_nat (Py.rfind s c)) s = String c t.
Proof.
  induction s as [|a s IH]; simpl Py.rfind; [lia|].
  destruct (0 <=? Py.rfind s c) eqn:E.
  - apply Z.leb_le in E. intros _.
    replace (Z.to_nat (Py.rfind s c + 1)) with (S (Z.to_nat (Py.rfind s c))) by lia.
    simpl. now apply IH.
  - destruct (Ascii.eqb a c) eqn:Ea; [|lia].
    apply Ascii.eqb_eq in Ea as ->. intros _. now exists s.
Qed.

Lemma bound_in_range (s : string) (i : Z) :
  0 <= i <= Z.of_nat (String.length s) -> Py.bound s i = Z.to_nat i.
Proof.
  intros H. unfold Py.bound. destruct (i <? 0) eqn:E; [lia|]. f_equal. lia.
Qed.

Lemma slice_to_0 (s : string) : Py.slice_to s 0 = "".
Proof.
  unfold Py.slice_to. rewrite bound_in_range by (simpl; lia).
  now destruct s.
Qed.

(** What [splitext] hands back: the two parts make up the path again, and
    the extension is empty or begins with a period. *)
Lemma splitext_parts (p base ext : string) :
  posixpath.splitext p = (base, ext) ->
  base +:+ ext = p /\ (ext = "" \/ exists e, ext = String "." e).
Proof.
  unfold posixpath.splitext. rewrite slice_to_0.
  destruct (Py.rfind p "/" <? Py.rfind p ".") eqn:Hlt; simpl.
  - destruct (posixpath.has_stem _ _ _).
    + intros E. injection E as <- <-. unfold Py.slice_to, Py.slice_from.
      split; [apply take_drop|]. right.
      apply Z.ltb_lt in Hlt.
      pose proof (rfind_range p "/"). pose proof (rfind_range p ".").
      rewrite bound_in_range by lia. apply rfind_drop. lia.
    + intros E. injection E as <- <-. split; [apply str_app_nil_r | now left].
  - intros E. injection E as <- <-. split; [apply str_app_nil_r | now left].
Qed.

Lemma candidate_succ (filename base ext : string) (k : nat) :
  posixpath.splitext filename = (base, ext) ->
  candidate filename (S k) = base +:+ "_" +:+ Py.str (Z.of_nat (S k)) +:+ ext.
Proof. unfold candidate. now intros ->. Qed.

(** All the names tried begin alike as far as [join] cares. *)
Lemma candidate_head (filename : string) (k : nat) :
  Py.startswith (candidate filename k) "/" = Py.startswith filename "/".
Proof.
  destruct k as [|k]; [reflexivity|].
  destruct (posixpath.splitext filename) as [base ext] eqn:E.
  rewrite (candidate_succ _ _ _ _ E).
  apply splitext_parts in E as [<- Hext].
  destruct base as [|c base]; [|reflexivity].
  destruct Hext as [-> | [e ->]]; reflexivity.
Qed.

Lemma candidate_inj (filename : string) (j k : nat) :
  candidate filename j = candidate filename k -> j = k.
Proof.
  destruct (posixpath.splitext filename) as [base ext] eqn:E.
  assert (Hlen : forall n, String.length (candidate filename (S n))
                           <> String.length filename).
  { intros n. rewrite (candidate_succ _ _ _ _ E).
    apply splitext_parts in E as [<- _].
    rewrite !str_length_app. simpl. lia. }
  destruct j as [|j], k as [|k]; intros H.
  - reflexivity.
  - exfalso. apply (Hlen k). now rewrite <- H.
  - exfalso. apply (Hlen j). now rewrite H.
  - rewrite !(candidate_succ _ _ _ _ E) in H.
    apply String.app_inj in H. apply String.app_inj in H.
    apply str_app_inv_tail, str_inj in H. lia.
Qed.

Lemma join_inj (a b b' : string) :
  Py.startswith b "/" = Py.startswith b' "/" ->
  posixpath.join a b = posixpath.join a b' -> b = b'.
Proof.
  unfold posixpath.join. intros <-.
  destruct (Py.startswith b "/"); [tauto|].
  destruct (negb (Py.truthy a) || Py.endswith a "/"); intros H.
  - now apply String.app_inj in H.
  - apply String.app_inj in H. now apply String.app_inj in H.
Qed.

(** The paths tried are pairwise different. *)
Lemma tried_inj (dest_dir filename : string) (j k : nat) :
  posixpath.join dest_dir (candidate filename j)
  = posixpath.join dest_dir (candidate filename k) -> j = k.
Proof.
  intros H. apply join_inj in H; [now apply candidate_inj in H|].
  now rewrite !candidate_head.
Qed.

End Paths.

(** * The "ensure unique" loop *)

Section Rename.

Variables (fs : gset string) (dest_dir filename : string).

Let tried (k : nat) : string := posixpath.join dest_dir (candidate filename k).

Lemma path_exists_true (path : string) : path_exists fs path = true <-> path ∈ fs.
Proof. unfold path_exists. apply bool_decide_eq_true. Qed.

Lemma path_exists_false (path : string) : path_exists fs path = false <-> path ∉ fs.
Proof. unfold path_exists. apply bool_decide_eq_false. Qed.

(** From the [k]-th name on, the loop stops at the first free one, given
    tests enough to reach it. *)
Lemma rename_loop_finds (base ext : string) (n fuel k : nat) :
  posixpath.splitext filename = (base, ext) ->
  (forall j, (k <= j < k + n)%nat -> tried j ∈ fs) ->
  tried (k + n) ∉ fs ->
  (n < fuel)%nat ->
  rename_loop fuel fs dest_dir base ext (candidate filename k) (Z.of_nat k + 1)
  = Some (candidate filename (k + n)).
Proof.
  intros Hsplit. revert fuel k.
  induction n as [|n IH]; intros fuel k Htaken Hfree Hfuel;
    (destruct fuel as [|fuel]; [lia|]); simpl.
  - rewrite Nat.add_0_r in *. apply path_exists_false in Hfree.
    fold (tried k). now rewrite Hfree.
  - assert (Hk : tried k ∈ fs) by (apply Htaken; lia).
    apply path_exists_true in Hk. fold (tried k). rewrite Hk.
    replace (Z.of_nat k + 1) with (Z.of_nat (S k)) by lia.
    rewrite <- (candidate_succ _ _ _ k Hsplit).
    replace (k + S n)%nat with (S k + n)%nat in * by lia.
    apply IH; [|exact Hfree|lia].
    intros j Hj. apply Htaken. lia.
Qed.

(** Below any bound, either every name tried is taken or there is a first
    free one. *)
Lemma first_free (n : nat) :
  (forall j, (j < n)%nat -> tried j ∈ fs)
  \/ (exists m, (m < n)%nat /\ (tried m ∉ fs) /\ forall j, (j < m)%nat -> tried j ∈ fs).
Proof.
  induction n as [|n [Hall | (m & Hm & Hfree & Hbelow)]].
  - left. intros j Hj. lia.
  - destruct (decide (tried n ∈ fs)) as [Hin | Hout].
    + left. intros j Hj. destruct (decide (j = n)) as [->|]; [exact Hin|].
      apply Hall. lia.
    + right. exists n. split; [lia|]. split; [exact Hout | exact Hall].
  - right. exists m. split; [lia|]. split; [exact Hfree | exact Hbelow].
Qed.

(** They cannot all be taken: the names are pairwise different and the
    tree holds [size fs] paths. *)
Lemma not_all_taken : ~ (forall j, (j < S (size fs))%nat -> tried j ∈ fs).
Proof.
  intros Hall.
  assert (Hnd : NoDup (tried <$> seq 0 (S (size fs)))).
  { apply NoDup_fmap_2_strong; [|apply NoDup_seq].
    intros j k _ _ H. now apply tried_inj in H. }
  assert (Hsub : (list_to_set (tried <$> seq 0 (S (size fs))) : gset string) ⊆ fs).
  { intros x Hx. apply elem_of_list_to_set, list_elem_of_fmap in Hx as (j & -> & Hj).
    apply elem_of_seq in Hj. apply Hall. lia. }
  apply subseteq_size in Hsub.
  rewrite (size_list_to_set _ Hnd), length_fmap, length_seq in Hsub. lia.
Qed.

(** The loop ends, with the first free name; it is the sanitised name
    itself exactly when that one is free. *)
Lemma unique_filename_first_free :
  exists m, unique_filename fs dest_dir filename = Some (candidate filename m)
            /\ (m <= size fs)%nat
            /\ (tried m ∉ fs)
            /\ forall j, (j < m)%nat -> tried j ∈ fs.
Proof.
  destruct (first_free (S (size fs))) as [Hall | (m & Hm & Hfree & Hbelow)].
  - now apply not_all_taken in Hall.
  - exists m. split; [|split; [lia | split; assumption]].
    unfold unique_filename.
    destruct (posixpath.splitext filename) as [base ext] eqn:Hsplit.
    apply (rename_loop_finds base ext m (S (size fs)) 0 Hsplit); [|exact Hfree|lia].
    intros j Hj. apply Hbelow. lia.
Qed.

End Rename.

(** * Image ingestion *)

Section Ingestion.

Context `{Werkzeug}.

Lemma save_image_allowed (property_id : Z) (dest_dir : string) (st : Ingest)
    (f : FileStorage.t) :
  Py.truthy (FileStorage.filename f) = true ->
  allowed_file (FileStorage.filename f) = true ->
  exists m,
    save_image property_id dest_dir st f
    = Some (mkIngest
              ({[ posixpath.join dest_dir
                    (candidate (secure_filename (FileStorage.filename f)) m) ]}
               ∪ ing_fs st)
              (ing_added st
               ++ [(property_id,
                    posixpath.join (Py.str property_id)
                      (candidate (secure_filename (FileStorage.filename f)) m))])
              (ing_saved st ++ [candidate (secure_filename (FileStorage.filename f)) m]))
    /\ (posixpath.join dest_dir (candidate (secure_filename (FileStorage.filename f)) m)
        ∉ ing_fs st)
    /\ forall j, (j < m)%nat ->
         posixpath.join dest_dir (candidate (secure_filename (FileStorage.filename f)) j)
         ∈ ing_fs st.
Proof.
  intros Hname Hallowed. unfold save_image. rewrite Hname, Hallowed. simpl.
  destruct (unique_filename_first_free (ing_fs st) dest_dir
              (secure_filename (FileStorage.filename f)))
    as (m & -> & _ & Hfree & Hbelow).
  exists m. simpl. auto.
Qed.

Lemma save_image_total (property_id : Z) (dest_dir : string) (st : Ingest)
    (f : FileStorage.t) :
  is_Some (save_image property_id dest_dir st f).
Proof.
  unfold save_image.
  destruct (negb (Py.truthy (FileStorage.filename f))); [eauto|].
  destruct (allowed_file (FileStorage.filename f)); [|eauto].
  destruct (unique_filename_first_free (ing_fs st) dest_dir
              (secure_filename (FileStorage.filename f))) as (m & -> & _).
  simpl. eauto.
Qed.

Lemma save_each_total (property_id : Z) (dest_dir : string)
    (files : list FileStorage.t) (st : Ingest) :
  is_Some (save_each property_id dest_dir st files).
Proof.
  revert st. induction files as [|f files IH]; intros st; simpl; [eauto|].
  destruct (save_image_total property_id dest_dir st f) as [st' ->]. simpl. apply IH.
Qed.

Lemma commit_images_other (rows : list (Z * string)) (db : Store) :
  tbl_user (commit_images db rows) = tbl_user db
  /\ tbl_property (commit_images db rows) = tbl_property db
  /\ tbl_application (commit_images db rows) = tbl_application db
  /\ tbl_inquiry (commit_images db rows) = tbl_inquiry db.
Proof.
  unfold commit_images. revert db.
  induction rows as [|row rows IH]; intros db; simpl; [repeat split|].
  destruct (IH (insert_image db row)) as (-> & -> & -> & ->). repeat split.
Qed.

(** [save_images] returns, and writes to the image table only. *)
Lemma save_images_total (db : Store) (fs : gset string)
    (files : list FileStorage.t) (property_id : Z) :
  exists db' fs' saved,
    save_images db fs files property_id = Some (db', fs', saved)
    /\ tbl_user db' = tbl_user db
    /\ tbl_property db' = tbl_property db
    /\ tbl_application db' = tbl_application db
    /\ tbl_inquiry db' = tbl_inquiry db.
Proof.
  unfold save_images.
  destruct (save_each_total property_id
              (posixpath.join UPLOAD_FOLDER (Py.str property_id)) files
              (mkIngest ({[posixpath.join UPLOAD_FOLDER (Py.str property_id)]} ∪ fs) [] []))
    as [st ->].
  simpl. do 3 eexists. split; [reflexivity|]. apply commit_images_other.
Qed.

End Ingestion.

(** C6: the "ensure unique" block always ends, and with the first free
    name in the series [name.ext], [name_1.ext], [name_2.ext], ... (the
    counter goes before the extension [splitext] splits off): every
    earlier name of the series exists in the directory, the chosen one
    does not.  Two uploads to one property whose sanitised names agree
    are both stored: two different file names, the second with a counter
    higher than the first's, and two Image rows with different paths. *)
Theorem save_images_unique_names `{Werkzeug} :
  (forall (fs : gset string) (dest_dir filename base ext : string),
     posixpath.splitext filename = (base, ext) ->
     base +:+ ext = filename
     /\ (forall k, candidate filename (S k)
                   = base +:+ "_" +:+ Py.str (Z.of_nat (S k)) +:+ ext)
     /\ exists m,
          unique_filename fs dest_dir filename = Some (candidate filename m)
          /\ (posixpath.join dest_dir (candidate filename m) ∉ fs)
          /\ forall j, (j < m)%nat ->
               posixpath.join dest_dir (candidate filename j) ∈ fs)
  /\ (forall (db : Store) (fs : gset string) (property_id : Z) (f1 f2 : FileStorage.t),
        FileStorage.filename f1 <> "" ->
        FileStorage.filename f2 <> "" ->
        allowed_file (FileStorage.filename f1) = true ->
        allowed_file (FileStorage.filename f2) = true ->
        secure_filename (FileStorage.filename f1)
        = secure_filename (FileStorage.filename f2) ->
        exists (m1 m2 : nat) (db' : Store) (fs' : gset string),
          let n1 := candidate (secure_filename (FileStorage.filename f1)) m1 in
          let n2 := candidate (secure_filename (FileStorage.filename f1)) m2 in
          let dest_dir := posixpath.join UPLOAD_FOLDER (Py.str property_id) in
          save_images db fs [f1; f2] property_id = Some (db', fs', [n1; n2])
          /\ (m1 < m2)%nat
          /\ n1 <> n2
          /\ (exists id1 id2,
                tbl_image db'
                = (tbl_image db
                   ++ [Image.mk id1 property_id (posixpath.join (Py.str property_id) n1);
                       Image.mk id2 property_id (posixpath.join (Py.str property_id) n2)])%list)
          /\ posixpath.join (Py.str property_id) n1
             <> posixpath.join (Py.str property_id) n2
          /\ (posixpath.join dest_dir n1 ∈ fs')
          /\ (posixpath.join dest_dir n2 ∈ fs')
          /\ posixpath.join dest_dir n1 <> posixpath.join dest_dir n2).
Proof.
  split.
  - intros fs dest_dir filename base ext Hsplit.
    split; [now apply splitext_parts in Hsplit|].
    split; [intros k; now apply candidate_succ|].
    destruct (unique_filename_first_free fs dest_dir filename)
      as (m & Hm & _ & Hfree & Hbelow).
    now exists m.
  - intros db fs property_id f1 f2 Hn1 Hn2 Ha1 Ha2 Hsame.
    apply truthy_str in Hn1, Hn2. unfold save_images.
    set (dest_dir := posixpath.join UPLOAD_FOLDER (Py.str property_id)).
    set (fn := secure_filename (FileStorage.filename f1)) in *.
    destruct (save_image_allowed property_id dest_dir
                (mkIngest ({[dest_dir]} ∪ fs) [] []) f1 Hn1 Ha1)
      as (m1 & E1 & Hfree1 & Hbelow1).
    fold fn in E1, Hfree1, Hbelow1. simpl in E1, Hfree1, Hbelow1.
    destruct (save_image_allowed property_id dest_dir
                (mkIngest ({[posixpath.join dest_dir (candidate fn m1)]}
                           ∪ ({[dest_dir]} ∪ fs))
                   [(property_id,
                     posixpath.join (Py.str property_id) (candidate fn m1))]
                   [candidate fn m1]) f2 Hn2 Ha2)
      as (m2 & E2 & Hfree2 & Hbelow2).
    rewrite <- Hsame in E2, Hfree2, Hbelow2. fold fn in E2, Hfree2, Hbelow2.
    simpl in E2, Hfree2, Hbelow2.
    assert (Hlt : (m1 < m2)%nat).
    { destruct (decide (m1 < m2)%nat) as [|Hge]; [assumption|]. exfalso.
      apply Hfree2. destruct (decide (m2 = m1)) as [->|Hne].
      - set_solver.
      - apply elem_of_union_r, Hbelow1. lia. }
    assert (Hnames : candidate fn m1 <> candidate fn m2).
    { intros E. apply candidate_inj in E. lia. }
    exists m1, m2. do 2 eexists. simpl.
    rewrite E1. simpl. rewrite E2. simpl.
    split; [reflexivity|]. split; [exact Hlt|]. split; [exact Hnames|].
    split; [do 2 eexists; unfold commit_images; simpl;
            rewrite <- List.app_assoc; reflexivity|].
    split.
    { intros E. apply join_inj in E; [contradiction|]. now rewrite !candidate_head. }
    split; [set_solver|]. split; [set_solver|].
    intros E. apply tried_inj in E. lia.
Qed.

Lemma save_images_unique_names_witness :
  FileStorage.filename Demo.photo <> ""
  /\ allowed_file (FileStorage.filename Demo.photo) = true
  /\ exists (m1 m2 : nat) (db' : Store) (fs' : gset string),
       let n1 := candidate (@secure_filename Demo.werkzeug (FileStorage.filename Demo.photo)) m1 in
       let n2 := candidate (@secure_filename Demo.werkzeug (FileStorage.filename Demo.photo)) m2 in
       let dest_dir := posixpath.join UPLOAD_FOLDER (Py.str 1) in
       @save_images Demo.werkzeug Demo.db0 ∅ [Demo.photo; Demo.photo] 1
       = Some (db', fs', [n1; n2])
       /\ (m1 < m2)%nat
       /\ n1 <> n2
       /\ (exists id1 id2,
             tbl_image db'
             = (tbl_image Demo.db0
                ++ [Image.mk id1 1 (posixpath.join (Py.str 1) n1);
                    Image.mk id2 1 (posixpath.join (Py.str 1) n2)])%list)
       /\ posixpath.join (Py.str 1) n1 <> posixpath.join (Py.str 1) n2
       /\ (posixpath.join dest_dir n1 ∈ fs')
       /\ (posixpath.join dest_dir n2 ∈ fs')
       /\ posixpath.join dest_dir n1 <> posixpath.join dest_dir n2.
Proof.
  split; [discriminate|]. split; [reflexivity|].
  apply (proj2 (@save_images_unique_names Demo.werkzeug) Demo.db0 ∅ 1 Demo.photo Demo.photo);
    first [discriminate | reflexivity].
Defined.

Example save_images_twice :
  (fun r => (tbl_image r.1.1, r.2)) <$> @save_images Demo.werkzeug Demo.db0 ∅ [Demo.photo; Demo.photo] 1
  = Some ([Image.mk 1 1 "1/Kitchen.JPG"; Image.mk 2 1 "1/Kitchen_1.JPG"],
          ["Kitchen.JPG"; "Kitchen_1.JPG"]).
Proof. vm_compute. reflexivity. Qed.

Example unique_filename_third :
  unique_filename {[ "static/uploads/7/a.png"; "static/uploads/7/a_1.png" ]}
    "static/uploads/7" "a.png"
  = Some "a_2.png".
Proof. vm_compute. reflexivity. Qed.

(** * The admin forms *)

Section AdminForms.

Context `{Werkzeug}.

Lemma or_else_int (x : option Z) (d : Z) :
  d <> 0 -> Py.or_else x d = int_or_default x d /\ Py.or_else x d <> 0.
Proof.
  intros Hd. unfold Py.or_else, int_or_default, Py.truthy, Py.int_truthy.
  destruct x as [v|]; [|now split].
  destruct (v =? 0) eqn:E; simpl; [now split|].
  apply Z.eqb_neq in E. now split.
Qed.

Lemma or_else_float (x : option float) :
  Py.or_else x 1%float = float_or_default x 1%float
  /\ PrimFloat.eqb (Py.or_else x 1%float) 0%float = false.
Proof.
  unfold Py.or_else, float_or_default, Py.truthy, Py.float_truthy.
  destruct x as [v|]; [|now split].
  destruct (PrimFloat.eqb v 0%float) eqn:E; simpl; now split.
Qed.

Lemma or_else_str (x : option string) :
  Py.or_else x "" = match x with Some d => d | None => "" end.
Proof. destruct x as [[|c d]|]; reflexivity. Qed.

Lemma defaults_hold_intro (form : PropertyForm.t) (i : Z) (t a c s : string)
    (price : Z) (r : bool) (now : Z) :
  defaults_hold form
    (Property.mk i t a c s price r
       (Py.or_else (Field.data (PropertyForm.beds form)) 1)
       (Py.or_else (Field.data (PropertyForm.baths form)) 1%float)
       (Py.or_else (Field.data (PropertyForm.sqft form)) 500)
       (Py.or_else (Field.data (PropertyForm.description form)) "")
       now).
Proof.
  unfold defaults_hold. simpl.
  destruct (or_else_int (Field.data (PropertyForm.beds form)) 1) as [-> ?]; [lia|].
  destruct (or_else_int (Field.data (PropertyForm.sqft form)) 500) as [-> ?]; [lia|].
  destruct (or_else_float (Field.data (PropertyForm.baths form))) as [E ?].
  rewrite <- E, or_else_str. repeat split; assumption.
Qed.

Lemma required_str_data (f : Field.t string) (rest : bool) :
  validators.required f (validators.DataRequired_str f) rest = true ->
  exists d, Field.data f = Some d.
Proof.
  unfold validators.required, validators.DataRequired_str.
  destruct (Field.data f) as [d|]; [eauto | discriminate].
Qed.

Lemma required_int_data (f : Field.t Z) (rest : bool) :
  validators.required f (validators.DataRequired_int f) rest = true ->
  exists d, Field.data f = Some d.
Proof.
  unfold validators.required, validators.DataRequired_int.
  destruct (Field.data f) as [d|]; [eauto | discriminate].
Qed.

(** A form that validates has data in its five required fields. *)
Lemma validate_required_data (form : PropertyForm.t) :
  PropertyForm.validate form = true ->
  exists title address city state price,
    Field.data (PropertyForm.title form) = Some title
    /\ Field.data (PropertyForm.address form) = Some address
    /\ Field.data (PropertyForm.city form) = Some city
    /\ Field.data (PropertyForm.state form) = Some state
    /\ Field.data (PropertyForm.price form) = Some price.
Proof.
  unfold PropertyForm.validate. intros Hv.
  repeat (apply andb_true_iff in Hv as [Hv ?]).
  repeat match goal with
         | Hr : validators.required _ (validators.DataRequired_str _) _ = true |- _ =>
             apply required_str_data in Hr as [? ?]
         | Hr : validators.required _ (validators.DataRequired_int _) _ = true |- _ =>
             apply required_int_data in Hr as [? ?]
         end.
  eauto 10.
Qed.

Lemma get_update_property (db : Store) (prop p : Property.t) :
  get_or_404 db (Property.id p) = Some prop ->
  get_or_404 (update_property db p) (Property.id p) = Some p
  /\ forall r, In r (tbl_property (update_property db p)) ->
               Property.id r = Property.id p -> r = p.
Proof.
  unfold get_or_404, get, update_property. simpl. intros Hget. split.
  - induction (tbl_property db) as [|r rows IH]; simpl in *; [discriminate|].
    destruct (Property.id r =? Property.id p) eqn:E.
    + now rewrite Z.eqb_refl.
    + rewrite E. now apply IH.
  - intros r Hr Hid. apply in_map_iff in Hr as (r0 & <- & _).
    destruct (Property.id r0 =? Property.id p) eqn:E; [reflexivity|].
    apply Z.eqb_neq in E. contradiction.
Qed.

End AdminForms.

(** C9: for a logged-in admin and a form that validates, the row
    [admin_new] appends and the row [admin_edit] rewrites carry the
    form's beds, baths, sqft and description with 1, 1.0, 500 and the
    empty string in place of data that is [None] or zero (or an empty
    description); in particular neither beds nor baths nor sqft is 0 in
    the stored row. *)
Theorem admin_forms_apply_defaults `{Werkzeug} (db : Store) (fs : gset string)
    (sess : Session) (form : PropertyForm.t) :
  is_authenticated db sess = true ->
  PropertyForm.validate form = true ->
  (forall now, exists out p,
     admin_new db fs sess now POST form = Some out
     /\ tbl_property (out_db out) = (tbl_property db ++ [p])%list
     /\ defaults_hold form p)
  /\ (forall prop_id prop, get_or_404 db prop_id = Some prop ->
        exists out p,
          admin_edit db fs sess prop_id POST form = Some out
          /\ get_or_404 (out_db out) prop_id = Some p
          /\ (forall r, In r (tbl_property (out_db out)) ->
                        Property.id r = prop_id -> r = p)
          /\ defaults_hold form p).
Proof.
  intros Hauth Hv.
  destruct (validate_required_data form Hv)
    as (title & address & city & state & price & Et & Ea & Ec & Es & Ep).
  split.
  - intros now. unfold admin_new, PropertyForm.validate_on_submit.
    rewrite Hauth, Hv, Et, Ea, Ec, Es, Ep. simpl.
    match goal with
    | |- context [save_images ?d ?f ?files ?i] =>
        destruct (save_images_total d f files i)
          as (db' & fs' & saved & -> & _ & Hprops & _)
    end.
    simpl. do 2 eexists. split; [reflexivity|]. simpl.
    split; [exact Hprops | apply defaults_hold_intro].
  - intros prop_id prop Hget. unfold admin_edit, PropertyForm.validate_on_submit.
    rewrite Hauth, Hget, Hv, Et, Ea, Ec, Es, Ep. simpl.
    match goal with
    | |- context [save_images ?d ?f ?files ?i] =>
        destruct (save_images_total d f files i)
          as (db' & fs' & saved & -> & _ & Hprops & _)
    end.
    simpl. do 2 eexists. split; [reflexivity|]. simpl.
    pose proof (get_some_id _ _ _ _ Hget) as [_ Hid]. subst prop_id.
    match type of Hprops with
    | _ = tbl_property (update_property _ ?p) =>
        destruct (get_update_property db prop p) as [Hg Hu]; [exact Hget|]
    end.
    simpl in Hg, Hu. unfold get_or_404 in *. rewrite Hprops.
    split; [exact Hg|]. split; [exact Hu | apply defaults_hold_intro].
Qed.

Lemma admin_forms_apply_defaults_witness :
  is_authenticated Demo.db0 Demo.admin = true
  /\ PropertyForm.validate Demo.listing = true
  /\ ((forall now, exists out p,
         @admin_new Demo.werkzeug Demo.db0 ∅ Demo.admin now POST Demo.listing = Some out
         /\ tbl_property (out_db out) = (tbl_property Demo.db0 ++ [p])%list
         /\ defaults_hold Demo.listing p)
      /\ (forall prop_id prop, get_or_404 Demo.db0 prop_id = Some prop ->
            exists out p,
              @admin_edit Demo.werkzeug Demo.db0 ∅ Demo.admin prop_id POST Demo.listing
              = Some out
              /\ get_or_404 (out_db out) prop_id = Some p
              /\ (forall r, In r (tbl_property (out_db out)) ->
                            Property.id r = prop_id -> r = p)
              /\ defaults_hold Demo.listing p)).
Proof.
  split; [reflexivity|]. split; [reflexivity|].
  apply (@admin_forms_apply_defaults Demo.werkzeug Demo.db0 ∅ Demo.admin Demo.listing);
    reflexivity.
Defined.

Example admin_new_zero_beds :
  (fun out => tbl_property (out_db out))
    <$> @admin_new Demo.werkzeug Demo.db0 ∅ Demo.admin 1700000500 POST Demo.listing
  = Some (tbl_property Demo.db0
          ++ [Property.mk 2 "Garden Flat" "9 Elm Rd" "Austin" "TX" 1800 true
                1 1%float 500 "" 1700000500])%list.
Proof. vm_compute. reflexivity. Qed.

Example admin_login_default_seed :
  @admin_login Demo.werkzeug Demo.email_validator Demo.db0 None POST
    (Demo.login "ADMIN@example.com" "changeme123")
  = (Some 1, [], Redirect "admin_dashboard" None).
Proof. reflexivity. Qed.

(** * More about the catalog *)

Section CatalogMore.

Import sqlite.
#[local] Arguments String.append : simpl nomatch.

Lemma where_clause_mode (args : gmap string string) (p : Property.t) :
  where_clause args p = true ->
  (default "all" (args !! "mode") = "rent" -> Property.for_rent p = true)
  /\ (default "all" (args !! "mode") = "sale" -> Property.for_rent p = false).
Proof.
  unfold where_clause. intros Hw. apply andb_true_iff in Hw as [_ Hm].
  split; intros E; rewrite E in Hm; simpl in Hm.
  - exact Hm.
  - now apply negb_true_iff in Hm.
Qed.

Lemma where_clause_city (args : gmap string string) (p : Property.t) :
  Py.strip (default "" (args !! "city")) <> "" ->
  no_wildcard (Py.strip (default "" (args !! "city"))) = true ->
  where_clause args p = true ->
  contains_ci (Py.strip (default "" (args !! "city"))) (Property.city p) = true.
Proof.
  intros Hne Hc. unfold where_clause. apply truthy_str in Hne. rewrite Hne.
  rewrite (ilike_is_contains _ _ Hc). intros Hw.
  apply andb_true_iff in Hw as [Hw _]. now apply andb_true_iff in Hw as [_ Hw].
Qed.


Lemma where_clause_blank (args : gmap string string) (p : Property.t) :
  Py.strip (default "" (args !! "q")) = "" ->
  Py.strip (default "" (args !! "city")) = "" ->
  mode_is_all args ->
  where_clause args p = true.
Proof.
  intros Hq Hc [Hr Hs]. unfold where_clause. rewrite Hq, Hc. simpl.
  apply String.eqb_neq in Hr, Hs. now rewrite Hr, Hs.
Qed.

Lemma filter_all_true {A} (f : A -> bool) (l : list A) :
  (forall x, f x = true) -> List.filter f l = l.
Proof.
  intros Hf. induction l as [|x l IH]; simpl; [reflexivity|].
  now rewrite Hf, IH.
Qed.

(** A pattern matches the text it spells, wildcards or not. *)
Lemma like_itself_then_any (s post : string) :
  like (s +:+ "%") (s +:+ post) = true.
Proof.
  induction s as [|c s IH].
  - apply like_percent_only.
  - change (String c s +:+ "%") with (String c (s +:+ "%")).
    change (String c s +:+ post) with (String c (s +:+ post)).
    destruct (is_wildcard c) eqn:Hc.
    + unfold is_wildcard in Hc. apply orb_true_iff in Hc as [Hc | Hc];
        apply Ascii.eqb_eq in Hc; subst c.
      * apply like_any_run. now exists "%", (s +:+ post).
      * rewrite like_underscore. exact IH.
    + rewrite (like_char _ _ _ Hc), IH, andb_true_r.
      apply same_char_iff. reflexivity.
Qed.

Lemma ilike_covers_contains (q col : string) :
  contains_ci q col = true -> ilike col ("%" +:+ q +:+ "%") = true.
Proof.
  unfold ilike, contains_ci. intros Hc.
  apply contains_iff in Hc as (pre & post & E).
  change ("%" +:+ q +:+ "%") with (String "%" (q +:+ "%")).
  change (lower (String "%" (q +:+ "%"))) with (String "%" (lower (q +:+ "%"))).
  rewrite lower_app. change (lower "%") with "%".
  apply like_any_run. exists pre, (lower q +:+ post). split; [exact E|].
  apply like_itself_then_any.
Qed.

End CatalogMore.

(** X1: whatever else is asked for, [mode=rent] lists rows with
    [for_rent] set only and [mode=sale] rows with [for_rent] clear only,
    on the home view as on the full listing. *)
Theorem mode_filters_on_for_rent (db : Store) (args : gmap string string)
    (p : Property.t) :
  In p (rendered (properties db args)) \/ In p (rendered (home db args)) ->
  (default "all" (args !! "mode") = "rent" -> Property.for_rent p = true)
  /\ (default "all" (args !! "mode") = "sale" -> Property.for_rent p = false).
Proof.
  intros Hp.
  assert (Hl : In p (rendered (properties db args))).
  { destruct Hp as [Hp | Hp]; [exact Hp | now apply home_listed]. }
  apply properties_listed in Hl as [_ Hw]. now apply where_clause_mode.
Qed.

Lemma mode_filters_on_for_rent_witness :
  (In Scenario.loft (rendered (properties Demo.db0 (Scenario.q_args "mode" "rent")))
   \/ In Scenario.loft (rendered (home Demo.db0 (Scenario.q_args "mode" "rent"))))
  /\ ((default "all" (Scenario.q_args "mode" "rent" !! "mode") = "rent" ->
       Property.for_rent Scenario.loft = true)
      /\ (default "all" (Scenario.q_args "mode" "rent" !! "mode") = "sale" ->
          Property.for_rent Scenario.loft = false)).
Proof.
  assert (H : In Scenario.loft (rendered (properties Demo.db0 (Scenario.q_args "mode" "rent")))
              \/ In Scenario.loft (rendered (home Demo.db0 (Scenario.q_args "mode" "rent")))).
  { left. left. reflexivity. }
  split; [exact H|].
  exact (mode_filters_on_for_rent Demo.db0 (Scenario.q_args "mode" "rent") Scenario.loft H).
Defined.



(** X3: for a [city] parameter that is not blank and holds no [%] or
    [_], every row either view lists has it, ASCII case aside, inside its
    city. *)
Theorem city_filter_by_substring (db : Store) (args : gmap string string)
    (p : Property.t) :
  Py.strip (default "" (args !! "city")) <> "" ->
  no_wildcard (Py.strip (default "" (args !! "city"))) = true ->
  In p (rendered (properties db args)) \/ In p (rendered (home db args)) ->
  contains_ci (Py.strip (default "" (args !! "city"))) (Property.city p) = true.
Proof.
  intros Hne Hc Hp.
  assert (Hl : In p (rendered (properties db args))).
  { destruct Hp as [Hp | Hp]; [exact Hp | now apply home_listed]. }
  apply properties_listed in Hl as [_ Hw]. now apply where_clause_city.
Qed.

Lemma city_filter_by_substring_witness :
  Py.strip (default "" (Scenario.q_args "city" " los " !! "city")) <> ""
  /\ no_wildcard (Py.strip (default "" (Scenario.q_args "city" " los " !! "city"))) = true
  /\ (In Scenario.loft (rendered (properties Demo.db0 (Scenario.q_args "city" " los ")))
      \/ In Scenario.loft (rendered (home Demo.db0 (Scenario.q_args "city" " los "))))
  /\ contains_ci (Py.strip (default "" (Scenario.q_args "city" " los " !! "city")))
       (Property.city Scenario.loft) = true.
Proof.
  assert (H : In Scenario.loft (rendered (properties Demo.db0 (Scenario.q_args "city" " los ")))
              \/ In Scenario.loft (rendered (home Demo.db0 (Scenario.q_args "city" " los ")))).
  { left. left. reflexivity. }
  split; [discriminate|]. split; [reflexivity|]. split; [exact H|].
  apply (city_filter_by_substring Demo.db0 (Scenario.q_args "city" " los ") Scenario.loft);
    [discriminate | reflexivity | exact H].
Defined.

(** X4: the search never misses a literal match: with no city and no
    mode filter, every stored row whose title, address or city contains
    [q] (ASCII case aside) is on the full listing, also when [q] holds
    [%] or [_]. *)
Theorem search_never_misses (db : Store) (args : gmap string string) (p : Property.t) :
  Py.strip (default "" (args !! "city")) = "" ->
  mode_is_all args ->
  In p (tbl_property db) ->
  mentions (Py.strip (default "" (args !! "q"))) p = true ->
  In p (rendered (properties db args)).
Proof.
  intros Hc [Hr Hs] Hp Hm. apply properties_listed. split; [exact Hp|].
  unfold where_clause. rewrite Hc. simpl.
  apply String.eqb_neq in Hr, Hs. rewrite Hr, Hs, !andb_true_r.
  destruct (Py.truthy (Py.strip (default "" (args !! "q")))); [|reflexivity].
  unfold mentions in Hm.
  apply orb_true_iff in Hm as [Hm | Hm]; [apply orb_true_iff in Hm as [Hm | Hm]|];
    apply ilike_covers_contains in Hm; rewrite Hm; rewrite ?orb_true_r; reflexivity.
Qed.

Lemma search_never_misses_witness :
  Py.strip (default "" (Scenario.q_args "q" "st, unit" !! "city")) = ""
  /\ mode_is_all (Scenario.q_args "q" "st, unit")
  /\ In Scenario.loft (tbl_property Demo.db0)
  /\ mentions (Py.strip (default "" (Scenario.q_args "q" "st, unit" !! "q"))) Scenario.loft
     = true
  /\ In Scenario.loft (rendered (properties Demo.db0 (Scenario.q_args "q" "st, unit"))).
Proof.
  assert (Hm : mode_is_all (Scenario.q_args "q" "st, unit")) by (split; discriminate).
  assert (Hp : In Scenario.loft (tbl_property Demo.db0)) by (left; reflexivity).
  split; [reflexivity|]. split; [exact Hm|]. split; [exact Hp|]. split; [reflexivity|].
  apply (search_never_misses Demo.db0 (Scenario.q_args "q" "st, unit") Scenario.loft);
    [reflexivity | exact Hm | exact Hp | reflexivity].
Defined.

(** X5: a [q] and a [city] that are absent or all white space filter
    nothing: with no mode filter, /properties lists every stored row,
    each once. *)
Theorem blank_search_lists_everything (db : Store) (args : gmap string string) :
  Py.strip (default "" (args !! "q")) = "" ->
  Py.strip (default "" (args !! "city")) = "" ->
  mode_is_all args ->
  Permutation (rendered (properties db args)) (tbl_property db)
  /\ rendered (properties db args) = Query.sort_desc (tbl_property db).
Proof.
  intros Hq Hc Hm.
  assert (E : rendered (properties db args) = Query.sort_desc (tbl_property db)).
  { rewrite properties_rows, filter_all_true; [reflexivity|].
    intros p. now apply where_clause_blank. }
  split; [rewrite E; apply sort_desc_perm | exact E].
Qed.

Lemma blank_search_lists_everything_witness :
  Py.strip (default "" (Scenario.q_args "q" "   " !! "q")) = ""
  /\ Py.strip (default "" (Scenario.q_args "q" "   " !! "city")) = ""
  /\ mode_is_all (Scenario.q_args "q" "   ")
  /\ (Permutation (rendered (properties Demo.db0 (Scenario.q_args "q" "   ")))
        (tbl_property Demo.db0)
      /\ rendered (properties Demo.db0 (Scenario.q_args "q" "   "))
         = Query.sort_desc (tbl_property Demo.db0)).
Proof.
  assert (Hm : mode_is_all (Scenario.q_args "q" "   ")) by (split; discriminate).
  split; [reflexivity|]. split; [reflexivity|]. split; [exact Hm|].
  apply (blank_search_lists_everything Demo.db0 (Scenario.q_args "q" "   "));
    [reflexivity | reflexivity | exact Hm].
Defined.

(** * More about the public forms *)

Section Submission.

Lemma next_id_above (ids : list Z) (i : Z) : In i ids -> i < next_id ids.
Proof.
  unfold next_id. induction ids as [|j ids IH]; simpl; [tauto|].
  intros [-> | Hi]; [lia|]. apply IH in Hi. lia.
Qed.

Lemma next_id_fresh {A} (key : A -> Z) (rows : list A) (r : A) :
  In r rows -> key r <> next_id (key <$> rows).
Proof.
  intros Hr E.
  assert (Hin : In (key r) (key <$> rows)) by (apply in_map_iff; eauto).
  apply next_id_above in Hin. lia.
Qed.

Lemma negb_truthy_blank (s : string) : s = "" -> Py.truthy s = false.
Proof. now intros ->. Qed.

End Submission.

(** X6: a POST to /apply/<id> for an existing Property with full name,
    e-mail and phone all non-blank appends exactly one Application row:
    it points at that Property, holds the five texts stripped, the
    current time, and an id no earlier Application has; nothing else in
    the store changes, and the answer redirects to the listing. *)
Theorem apply_stores_application (db : Store) (now prop_id : Z)
    (form : gmap string string) (prop : Property.t) :
  get_or_404 db prop_id = Some prop ->
  Py.strip (default "" (form !! "full_name")) <> "" ->
  Py.strip (default "" (form !! "email")) <> "" ->
  Py.strip (default "" (form !! "phone")) <> "" ->
  exists id,
    apply db now prop_id POST form
    = (mkStore (tbl_user db) (tbl_property db) (tbl_image db)
         (tbl_application db
          ++ [Application.mk id prop_id
                (Py.strip (default "" (form !! "full_name")))
                (Py.strip (default "" (form !! "email")))
                (Py.strip (default "" (form !! "phone")))
                (Py.strip (default "" (form !! "move_in")))
                (Py.strip (default "" (form !! "message")))
                now])%list
         (tbl_inquiry db),
       [("Application submitted. We'll be in touch shortly.", "success")],
       Redirect "property_detail" (Some prop_id))
    /\ forall a, In a (tbl_application db) -> Application.id a <> id.
Proof.
  intros Hget Hn He Hp. apply truthy_str in Hn, He, Hp.
  exists (next_id (Application.id <$> tbl_application db)). split.
  - unfold apply. rewrite Hget, Hn, He, Hp. simpl.
    apply get_some_id in Hget as [_ ->]. reflexivity.
  - intros a Ha. now apply next_id_fresh.
Qed.

Lemma apply_stores_application_witness :
  get_or_404 Demo.db0 1 = Some Scenario.loft
  /\ Py.strip (default "" (Scenario.application_form !! "full_name")) <> ""
  /\ Py.strip (default "" (Scenario.application_form !! "email")) <> ""
  /\ Py.strip (default "" (Scenario.application_form !! "phone")) <> ""
  /\ exists id,
       apply Demo.db0 1700000900 1 POST Scenario.application_form
       = (mkStore (tbl_user Demo.db0) (tbl_property Demo.db0) (tbl_image Demo.db0)
            (tbl_application Demo.db0
             ++ [Application.mk id 1
                   (Py.strip (default "" (Scenario.application_form !! "full_name")))
                   (Py.strip (default "" (Scenario.application_form !! "email")))
                   (Py.strip (default "" (Scenario.application_form !! "phone")))
                   (Py.strip (default "" (Scenario.application_form !! "move_in")))
                   (Py.strip (default "" (Scenario.application_form !! "message")))
                   1700000900])%list
            (tbl_inquiry Demo.db0),
          [("Application submitted. We'll be in touch shortly.", "success")],
          Redirect "property_detail" (Some 1))
       /\ forall a, In a (tbl_application Demo.db0) -> Application.id a <> id.
Proof.
  split; [reflexivity|]. split; [discriminate|]. split; [discriminate|].
  split; [discriminate|].
  apply (apply_stores_application Demo.db0 1700000900 1 Scenario.application_form
           Scenario.loft); [reflexivity | discriminate | discriminate | discriminate].
Defined.

(** X7: a POST to /contact in which the full name, the e-mail, the
    subject or the message is blank once stripped writes nothing and
    answers with the contact page and the error flash. *)
Theorem contact_rejects_blank_fields (db : Store) (now : Z) (form : gmap string string) :
  Py.strip (default "" (form !! "full_name")) = ""
  \/ Py.strip (default "" (form !! "email")) = ""
  \/ Py.strip (default "" (form !! "subject")) = ""
  \/ Py.strip (default "" (form !! "message")) = "" ->
  contact db now POST form
  = (db, [("Please complete all required fields.", "danger")], Render "contact.html" []).
Proof.
  intros Hblank. unfold contact.
  destruct Hblank as [-> | [-> | [-> | ->]]]; simpl;
    rewrite ?andb_false_r; reflexivity.
Qed.

Lemma contact_rejects_blank_fields_witness :
  (Py.strip (default "" (delete "subject" Scenario.inquiry_form !! "full_name")) = ""
   \/ Py.strip (default "" (delete "subject" Scenario.inquiry_form !! "email")) = ""
   \/ Py.strip (default "" (delete "subject" Scenario.inquiry_form !! "subject")) = ""
   \/ Py.strip (default "" (delete "subject" Scenario.inquiry_form !! "message")) = "")
  /\ contact Demo.db0 1700000900 POST (delete "subject" Scenario.inquiry_form)
     = (Demo.db0, [("Please complete all required fields.", "danger")],
        Render "contact.html" []).
Proof.
  assert (H : Py.strip (default "" (delete "subject" Scenario.inquiry_form !! "full_name")) = ""
              \/ Py.strip (default "" (delete "subject" Scenario.inquiry_form !! "email")) = ""
              \/ Py.strip (default "" (delete "subject" Scenario.inquiry_form !! "subject")) = ""
              \/ Py.strip (default "" (delete "subject" Scenario.inquiry_form !! "message")) = "").
  { right. right. left. reflexivity. }
  split; [exact H|].
  exact (contact_rejects_blank_fields Demo.db0 1700000900
           (delete "subject" Scenario.inquiry_form) H).
Defined.

(** X8: a POST to /contact with the four required texts non-blank
    appends exactly one Inquiry row, with the five texts stripped (the
    phone may be missing: it is stored empty), the current time and an id
    no earlier Inquiry has, changes nothing else and redirects to the
    contact page. *)
Theorem contact_stores_inquiry (db : Store) (now : Z) (form : gmap string string) :
  Py.strip (default "" (form !! "full_name")) <> "" ->
  Py.strip (default "" (form !! "email")) <> "" ->
  Py.strip (default "" (form !! "subject")) <> "" ->
  Py.strip (default "" (form !! "message")) <> "" ->
  exists id,
    contact db now POST form
    = (mkStore (tbl_user db) (tbl_property db) (tbl_image db) (tbl_application db)
         (tbl_inquiry db
          ++ [Inquiry.mk id
                (Py.strip (default "" (form !! "full_name")))
                (Py.strip (default "" (form !! "email")))
                (Py.strip (default "" (form !! "phone")))
                (Py.strip (default "" (form !! "subject")))
                (Py.strip (default "" (form !! "message")))
                now])%list,
       [("Thanks! We'll reply shortly.", "success")],
       Redirect "contact" None)
    /\ (forall r, In r (tbl_inquiry db) -> Inquiry.id r <> id)
    /\ (form !! "phone" = None ->
        Py.strip (default "" (form !! "phone")) = "").
Proof.
  intros Hn He Hs Hm. apply truthy_str in Hn, He, Hs, Hm.
  exists (next_id (Inquiry.id <$> tbl_inquiry db)). split; [|split].
  - unfold contact. rewrite Hn, He, Hs, Hm. reflexivity.
  - intros r Hr. now apply next_id_fresh.
  - now intros ->.
Qed.

Lemma contact_stores_inquiry_witness :
  Py.strip (default "" (Scenario.inquiry_form !! "full_name")) <> ""
  /\ Py.strip (default "" (Scenario.inquiry_form !! "email")) <> ""
  /\ Py.strip (default "" (Scenario.inquiry_form !! "subject")) <> ""
  /\ Py.strip (default "" (Scenario.inquiry_form !! "message")) <> ""
  /\ exists id,
       contact Demo.db0 1700000900 POST Scenario.inquiry_form
       = (mkStore (tbl_user Demo.db0) (tbl_property Demo.db0) (tbl_image Demo.db0)
            (tbl_application Demo.db0)
            (tbl_inquiry Demo.db0
             ++ [Inquiry.mk id
                   (Py.strip (default "" (Scenario.inquiry_form !! "full_name")))
                   (Py.strip (default "" (Scenario.inquiry_form !! "email")))
                   (Py.strip (default "" (Scenario.inquiry_form !! "phone")))
                   (Py.strip (default "" (Scenario.inquiry_form !! "subject")))
                   (Py.strip (default "" (Scenario.inquiry_form !! "message")))
                   1700000900])%list,
          [("Thanks! We'll reply shortly.", "success")],
          Redirect "contact" None)
       /\ (forall r, In r (tbl_inquiry Demo.db0) -> Inquiry.id r <> id)
       /\ (Scenario.inquiry_form !! "phone" = None ->
           Py.strip (default "" (Scenario.inquiry_form !! "phone")) = "").
Proof.
  split; [discriminate|]. split; [discriminate|]. split; [discriminate|].
  split; [discriminate|].
  apply (contact_stores_inquiry Demo.db0 1700000900 Scenario.inquiry_form); discriminate.
Defined.

(** X9: the public forms only ever append: whatever is submitted to
    /apply/<id> or /contact, by whatever method, the users, listings and
    images stay as they are, /apply leaves the inquiries and /contact the
    applications alone, and the rows of the table written to are all
    still there, in place, followed by at most one new row. *)
Theorem public_forms_append_only (db : Store) (now prop_id : Z) (method : Method)
    (form : gmap string string) :
  (let db' := (apply db now prop_id method form).1.1 in
   tbl_user db' = tbl_user db /\ tbl_property db' = tbl_property db
   /\ tbl_image db' = tbl_image db /\ tbl_inquiry db' = tbl_inquiry db
   /\ exists new, tbl_application db' = (tbl_application db ++ new)%list
                  /\ (length new <= 1)%nat)
  /\ (let db' := (contact db now method form).1.1 in
      tbl_user db' = tbl_user db /\ tbl_property db' = tbl_property db
      /\ tbl_image db' = tbl_image db /\ tbl_application db' = tbl_application db
      /\ exists new, tbl_inquiry db' = (tbl_inquiry db ++ new)%list
                     /\ (length new <= 1)%nat).
Proof.
  assert (Hnone : forall {A} (l : list A),
            exists new, l = (l ++ new)%list /\ (length new <= 1)%nat).
  { intros A l. exists []. rewrite List.app_nil_r. split; [reflexivity | simpl; lia]. }
  assert (Hone : forall {A} (l : list A) (x : A),
            exists new, (l ++ [x])%list = (l ++ new)%list /\ (length new <= 1)%nat).
  { intros A l x. exists [x]. split; [reflexivity | simpl; lia]. }
  split.
  - unfold apply. destruct (get_or_404 db prop_id) as [prop|]; simpl.
    + destruct method; simpl; [|destruct (negb _); simpl];
        repeat (split; [reflexivity|]); auto.
    + repeat (split; [reflexivity|]); auto.
  - unfold contact. destruct method; simpl; [|destruct (negb _); simpl];
      repeat (split; [reflexivity|]); auto.
Qed.

(** * More about signing in *)

Section Sessions.

Lemma get_is_some {A} (key : A -> Z) (rows : list A) (r : A) :
  In r rows -> is_Some (get key rows (key r)).
Proof.
  unfold get. induction rows as [|x rows IH]; simpl; [tauto|].
  intros [-> | Hr].
  - rewrite Z.eqb_refl. eauto.
  - destruct (key x =? key r); [eauto | now apply IH].
Qed.

Lemma logged_out_not_authenticated (db : Store) (sess : Session) :
  logged_out db sess -> is_authenticated db sess = false.
Proof.
  destruct sess as [uid|]; simpl; [|reflexivity].
  intros Hno. apply bool_decide_eq_false. intros [u Hu].
  unfold load_user in Hu. apply get_some_id in Hu as [Hin Hid].
  now apply (Hno u).
Qed.

Lemma stored_user_authenticated (db : Store) (u : User.t) :
  In u (tbl_user db) -> is_authenticated db (Some (User.id u)) = true.
Proof.
  intros Hu. simpl. apply bool_decide_eq_true. unfold load_user.
  now apply get_is_some.
Qed.

Lemma first_by_email_found (db : Store) (email : string) (u : User.t) :
  first_by_email db email = Some u -> In u (tbl_user db) /\ User.email u = email.
Proof.
  unfold first_by_email. intros Hf. apply find_some in Hf as [Hin He].
  split; [exact Hin | now apply String.eqb_eq].
Qed.


End Sessions.

(** X10: every admin route turns away a client that has no session or
    whose session names a user that does not exist: the answer is the
    redirect to the login page, and the store, the upload tree and the
    session are what they were; nothing is listed, written or deleted. *)
Theorem admin_routes_require_login `{Werkzeug} (db : Store) (fs : gset string)
    (sess : Session) (now prop_id : Z) (method : Method) (form : PropertyForm.t) :
  logged_out db sess ->
  admin_dashboard db sess = unauthorized
  /\ admin_new db fs sess now method form
     = Some (mkOutcome db fs unauthorized.1 unauthorized.2)
  /\ admin_edit db fs sess prop_id method form
     = Some (mkOutcome db fs unauthorized.1 unauthorized.2)
  /\ admin_delete db sess prop_id = (db, unauthorized.1, unauthorized.2)
  /\ admin_logout db sess = (sess, unauthorized.1, unauthorized.2)
  /\ unauthorized.2 = Redirect "admin_login" None.
Proof.
  intros Hout. apply logged_out_not_authenticated in Hout.
  unfold admin_dashboard, admin_new, admin_edit, admin_delete, admin_logout.
  rewrite Hout. simpl. repeat split.
Qed.

Lemma admin_routes_require_login_witness :
  logged_out Demo.db0 (Some 7)
  /\ (admin_dashboard Demo.db0 (Some 7) = unauthorized
      /\ @admin_new Demo.werkzeug Demo.db0 ∅ (Some 7) 5 POST Demo.listing
         = Some (mkOutcome Demo.db0 ∅ unauthorized.1 unauthorized.2)
      /\ @admin_edit Demo.werkzeug Demo.db0 ∅ (Some 7) 1 POST Demo.listing
         = Some (mkOutcome Demo.db0 ∅ unauthorized.1 unauthorized.2)
      /\ admin_delete Demo.db0 (Some 7) 1 = (Demo.db0, unauthorized.1, unauthorized.2)
      /\ admin_logout Demo.db0 (Some 7) = (Some 7, unauthorized.1, unauthorized.2)
      /\ unauthorized.2 = Redirect "admin_login" None).
Proof.
  assert (H : logged_out Demo.db0 (Some 7)).
  { intros u [<- | []]. discriminate. }
  split; [exact H|].
  exact (@admin_routes_require_login Demo.werkzeug Demo.db0 ∅ (Some 7) 5 1 POST
           Demo.listing H).
Defined.

(** X11: the login route hands out a session only for a stored user
    whose address is the lower-cased submitted one, whose password check
    passes and who is active, on a POST that validates; that session then
    passes [login_required].  In every other case the session is the one
    the request came with. *)
Theorem admin_login_sound `{Werkzeug} `{EmailValidator} (db : Store) (sess sess' : Session)
    (method : Method) (form : LoginForm.t) (flashes : list Flash) (response : Response) :
  admin_login db sess method form = (sess', flashes, response) ->
  (response = Redirect "admin_dashboard" None
   /\ method = POST
   /\ LoginForm.validate form = true
   /\ exists u email password,
        In u (tbl_user db)
        /\ Field.data (LoginForm.email form) = Some email
        /\ Field.data (LoginForm.password form) = Some password
        /\ User.email u = Py.lower email
        /\ User.check_password u password = true
        /\ User.active u = true
        /\ sess' = Some (User.id u)
        /\ is_authenticated db sess' = true)
  \/ (response <> Redirect "admin_dashboard" None /\ sess' = sess).
Proof.
  unfold admin_login, LoginForm.validate_on_submit.
  destruct method; simpl.
  - intros E. injection E as <- <- <-. right. split; [discriminate | reflexivity].
  - destruct (LoginForm.validate form) eqn:Hv.
    + destruct (Field.data (LoginForm.email form)) as [email|] eqn:He;
        [|intros E; injection E as <- <- <-; right; split; [discriminate | reflexivity]].
      destruct (Field.data (LoginForm.password form)) as [password|] eqn:Hp;
        [|intros E; injection E as <- <- <-; right; split; [discriminate | reflexivity]].
      destruct (first_by_email db (Py.lower email)) as [u|] eqn:Hu;
        [|intros E; injection E as <- <- <-; right; split; [discriminate | reflexivity]].
      destruct (User.check_password u password && User.active u) eqn:Hok;
        [|intros E; injection E as <- <- <-; right; split; [discriminate | reflexivity]].
      intros E. injection E as <- <- <-. left.
      apply first_by_email_found in Hu as [Hin Hmail].
      apply andb_true_iff in Hok as [Hc Ha].
      split; [reflexivity|]. split; [reflexivity|]. split; [reflexivity|].
      exists u, email, password.
      repeat (split; [assumption || reflexivity|]).
      now apply stored_user_authenticated.
    + intros E. injection E as <- <- <-. right. split; [discriminate | reflexivity].
Qed.

Lemma admin_login_sound_witness :
  @admin_login Demo.werkzeug Demo.email_validator Demo.db0 None POST
    (Demo.login "Admin@Example.com" "changeme123")
  = (Some 1, [], Redirect "admin_dashboard" None)
  /\ ((Redirect "admin_dashboard" None = Redirect "admin_dashboard" None
       /\ POST = POST
       /\ @LoginForm.validate Demo.email_validator
            (Demo.login "Admin@Example.com" "changeme123") = true
       /\ exists u email password,
            In u (tbl_user Demo.db0)
            /\ Field.data (LoginForm.email (Demo.login "Admin@Example.com" "changeme123"))
               = Some email
            /\ Field.data (LoginForm.password (Demo.login "Admin@Example.com" "changeme123"))
               = Some password
            /\ User.email u = Py.lower email
            /\ @User.check_password Demo.werkzeug u password = true
            /\ User.active u = true
            /\ Some 1 = Some (User.id u)
            /\ is_authenticated Demo.db0 (Some 1) = true)
      \/ (Redirect "admin_dashboard" None <> Redirect "admin_dashboard" None
          /\ Some 1 = (None : Session))).
Proof.
  split; [reflexivity|].
  apply (@admin_login_sound Demo.werkzeug Demo.email_validator Demo.db0 None (Some 1) POST
           (Demo.login "Admin@Example.com" "changeme123") []
           (Redirect "admin_dashboard" None)).
  reflexivity.
Defined.

(** X12: signing out ends the session: for a logged-in client,
    /admin/logout answers with the redirect to the login page and the
    empty session, and with that session the dashboard and the delete
    route turn the client away, whatever the store holds. *)
Theorem admin_logout_ends_session (db : Store) (sess : Session) (prop_id : Z) :
  is_authenticated db sess = true ->
  admin_logout db sess = (None, [], Redirect "admin_login" None)
  /\ admin_dashboard db (admin_logout db sess).1.1 = unauthorized
  /\ admin_delete db (admin_logout db sess).1.1 prop_id
     = (db, unauthorized.1, unauthorized.2).
Proof.
  intros Hin. unfold admin_logout. rewrite Hin. simpl. repeat split.
Qed.

Lemma admin_logout_ends_session_witness :
  is_authenticated Demo.db0 Demo.admin = true
  /\ (admin_logout Demo.db0 Demo.admin = (None, [], Redirect "admin_login" None)
      /\ admin_dashboard Demo.db0 (admin_logout Demo.db0 Demo.admin).1.1 = unauthorized
      /\ admin_delete Demo.db0 (admin_logout Demo.db0 Demo.admin).1.1 1
         = (Demo.db0, unauthorized.1, unauthorized.2)).
Proof.
  split; [reflexivity|].
  apply (admin_logout_ends_session Demo.db0 Demo.admin 1). reflexivity.
Defined.



(** * More about image ingestion *)

Section IngestionMore.

Context `{Werkzeug}.

(** One pass of the loop body either leaves everything as it is or
    stores the file under a path that did not exist. *)
Lemma save_image_cases (property_id : Z) (dest_dir : string) (st : Ingest)
    (f : FileStorage.t) :
  save_image property_id dest_dir st f = Some st
  \/ exists n,
       save_image property_id dest_dir st f
       = Some (mkIngest ({[ posixpath.join dest_dir n ]} ∪ ing_fs st)
                 (ing_added st ++ [(property_id, posixpath.join (Py.str property_id) n)])%list
                 (ing_saved st ++ [n])%list)
       /\ (posixpath.join dest_dir n ∉ ing_fs st).
Proof.
  destruct (Py.truthy (FileStorage.filename f)) eqn:Hn;
    [|left; unfold save_image; now rewrite Hn].
  destruct (allowed_file (FileStorage.filename f)) eqn:Ha;
    [|left; unfold save_image; now rewrite Hn, Ha].
  right. destruct (save_image_allowed property_id dest_dir st f Hn Ha)
    as (m & E & Hfree & _).
  eexists. split; [exact E | exact Hfree].
Qed.

Lemma save_image_passed_over (property_id : Z) (dest_dir : string) (st : Ingest)
    (f : FileStorage.t) :
  passed_over f = true -> save_image property_id dest_dir st f = Some st.
Proof.
  unfold passed_over, save_image. intros Hp.
  destruct (negb (Py.truthy (FileStorage.filename f))); [reflexivity|].
  simpl in Hp. apply negb_true_iff in Hp. now rewrite Hp.
Qed.

(** What a run of the loop adds to the state it starts from. *)
Lemma save_each_adds (property_id : Z) (dest_dir : string)
    (files : list FileStorage.t) (st : Ingest) :
  exists st' new,
    save_each property_id dest_dir st files = Some st'
    /\ ing_saved st' = (ing_saved st ++ new)%list
    /\ ing_added st'
       = (ing_added st
          ++ ((fun n => (property_id, posixpath.join (Py.str property_id) n)) <$> new))%list
    /\ ing_fs st ⊆ ing_fs st'
    /\ NoDup new
    /\ (forall n, In n new ->
          (posixpath.join dest_dir n ∉ ing_fs st)
          /\ (posixpath.join dest_dir n ∈ ing_fs st'))
    /\ (length new <= length files)%nat.
Proof.
  revert st. induction files as [|f files IH]; intros st; simpl.
  - exists st, []. split; [reflexivity|].
    split; [now rewrite List.app_nil_r|]. split; [now rewrite List.app_nil_r|].
    split; [done|]. split; [constructor|]. split; [intros n []|simpl; lia].
  - destruct (save_image_cases property_id dest_dir st f) as [-> | (n & -> & Hfree)]; simpl.
    + destruct (IH st) as (st' & new & E & Hs & Ha & Hfs & Hnd & Hplaced & Hlen).
      exists st', new. split; [exact E|]. split; [exact Hs|]. split; [exact Ha|].
      split; [exact Hfs|]. split; [exact Hnd|]. split; [exact Hplaced | lia].
    + destruct (IH (mkIngest ({[ posixpath.join dest_dir n ]} ∪ ing_fs st)
                      (ing_added st ++ [(property_id, posixpath.join (Py.str property_id) n)])%list
                      (ing_saved st ++ [n])%list))
        as (st' & new & E & Hs & Ha & Hfs & Hnd & Hplaced & Hlen).
      simpl in Hs, Ha, Hfs, Hplaced.
      exists st', (n :: new). split; [exact E|].
      split; [now rewrite Hs, <- List.app_assoc|].
      split; [now rewrite Ha, <- List.app_assoc|].
      split; [clear Hplaced; set_solver|].
      split.
      { constructor; [|exact Hnd]. intros Hin. apply list_elem_of_In in Hin.
        destruct (Hplaced _ Hin) as [Hout _]. clear Hplaced; set_solver. }
      split; [|simpl; lia].
      intros m [<- | Hm].
      * split; [exact Hfree | clear Hplaced; set_solver].
      * destruct (Hplaced _ Hm) as [Hout Hin]. split; [clear Hplaced; set_solver | exact Hin].
Qed.

Lemma commit_images_rows (rows : list (Z * string)) (db : Store) :
  exists imgs,
    tbl_image (commit_images db rows) = (tbl_image db ++ imgs)%list
    /\ (fun i => (Image.property_id i, Image.filename i)) <$> imgs = rows.
Proof.
  unfold commit_images. revert db.
  induction rows as [|[pid name] rows IH]; intros db; simpl.
  - exists []. now rewrite List.app_nil_r.
  - destruct (IH (insert_image db (pid, name))) as (imgs & E & Hrows).
    simpl in E. eexists (_ :: imgs). split.
    + rewrite E, <- List.app_assoc. reflexivity.
    + rewrite fmap_cons, Hrows. reflexivity.
Qed.

Lemma save_images_never_overwrites_aux (db : Store) (fs : gset string)
    (files : list FileStorage.t) (property_id : Z) :
  exists db' fs' saved rows,
    save_images db fs files property_id = Some (db', fs', saved)
    /\ tbl_image db' = (tbl_image db ++ rows)%list
    /\ fs ⊆ fs'.
Proof.
  unfold save_images.
  destruct (save_each_adds property_id (posixpath.join UPLOAD_FOLDER (Py.str property_id))
              files
              (mkIngest ({[posixpath.join UPLOAD_FOLDER (Py.str property_id)]} ∪ fs) [] []))
    as (st & new & -> & _ & _ & Hfs & _).
  simpl in Hfs. simpl.
  destruct (commit_images_rows (ing_added st) db) as (rows & Hrows & _).
  do 3 eexists. exists rows. split; [reflexivity|]. split; [exact Hrows | set_solver].
Qed.

End IngestionMore.

(** X14: files without a name and files whose extension is not on the
    allow-list are passed over in silence: if every uploaded file is such
    a file, [save_images] returns the empty list, adds no Image row and
    no file; only the property's directory is made. *)
Theorem save_images_passes_over `{Werkzeug} (db : Store) (fs : gset string)
    (files : list FileStorage.t) (property_id : Z) :
  (forall f, In f files -> passed_over f = true) ->
  save_images db fs files property_id
  = Some (db, {[ posixpath.join UPLOAD_FOLDER (Py.str property_id) ]} ∪ fs, []).
Proof.
  intros Hall. unfold save_images.
  assert (E : forall st, save_each property_id
                           (posixpath.join UPLOAD_FOLDER (Py.str property_id)) st files
                         = Some st).
  { induction files as [|f files IH]; intros st; simpl; [reflexivity|].
    rewrite save_image_passed_over by (apply Hall; now left). simpl.
    apply IH. intros g Hg. apply Hall. now right. }
  rewrite E. simpl. now destruct db.
Qed.

Lemma save_images_passes_over_witness :
  (forall f, In f [Scenario.notes; Scenario.unnamed] -> passed_over f = true)
  /\ @save_images Demo.werkzeug Demo.db0 ∅ [Scenario.notes; Scenario.unnamed] 1
     = Some (Demo.db0, {[ posixpath.join UPLOAD_FOLDER (Py.str 1) ]} ∪ ∅, []).
Proof.
  assert (H : forall f, In f [Scenario.notes; Scenario.unnamed] -> passed_over f = true).
  { intros f [<- | [<- | []]]; reflexivity. }
  split; [exact H|].
  exact (@save_images_passes_over Demo.werkzeug Demo.db0 ∅
           [Scenario.notes; Scenario.unnamed] 1 H).
Defined.

(** X15: [save_images] always returns, and never writes over a file:
    the names it reports are pairwise different, each was free in the
    property's directory before the call and exists after it; no path is
    removed from the upload tree; at most one name per uploaded file; and
    the Image table is the old one followed by one row per name, in
    order, each with the property's id and the path "<id>/<name>". *)
Theorem save_images_never_overwrites `{Werkzeug} (db : Store) (fs : gset string)
    (files : list FileStorage.t) (property_id : Z) :
  exists db' fs' saved rows,
    save_images db fs files property_id = Some (db', fs', saved)
    /\ NoDup saved
    /\ (forall n, In n saved ->
          (posixpath.join (posixpath.join UPLOAD_FOLDER (Py.str property_id)) n ∉ fs)
          /\ (posixpath.join (posixpath.join UPLOAD_FOLDER (Py.str property_id)) n ∈ fs'))
    /\ fs ⊆ fs'
    /\ (length saved <= length files)%nat
    /\ tbl_image db' = (tbl_image db ++ rows)%list
    /\ (fun i => (Image.property_id i, Image.filename i)) <$> rows
       = (fun n => (property_id, posixpath.join (Py.str property_id) n)) <$> saved.
Proof.
  unfold save_images.
  destruct (save_each_adds property_id (posixpath.join UPLOAD_FOLDER (Py.str property_id))
              files
              (mkIngest ({[posixpath.join UPLOAD_FOLDER (Py.str property_id)]} ∪ fs) [] []))
    as (st & new & -> & Hs & Ha & Hfs & Hnd & Hplaced & Hlen).
  simpl in Hs, Ha, Hfs, Hplaced. simpl.
  destruct (commit_images_rows (ing_added st) db) as (rows & Hrows & Hmap).
  exists (commit_images db (ing_added st)), (ing_fs st), (ing_saved st), rows.
  rewrite Hs. split; [reflexivity|]. split; [exact Hnd|].
  split.
  { intros n Hn. destruct (Hplaced _ Hn) as [Hout Hin]. split; [clear Hplaced; set_solver | exact Hin]. }
  split; [clear Hplaced; set_solver|]. split; [exact Hlen|]. split; [exact Hrows|].
  now rewrite Hmap, Ha.
Qed.

(** * Primary keys *)

Section Keys.

Context `{Werkzeug}.

Lemma NoDup_next_id {A} (key : A -> Z) (rows : list A) (r : A) :
  key r = next_id (key <$> rows) ->
  NoDup (key <$> rows) -> NoDup (key <$> (rows ++ [r])%list).
Proof.
  intros Hr Hnd. rewrite fmap_app. apply NoDup_app. split; [exact Hnd|].
  split; [|apply NoDup_singleton].
  intros i Hi Hi'. apply list_elem_of_singleton in Hi'. subst i.
  apply list_elem_of_In, next_id_above in Hi. simpl in Hr. lia.
Qed.

Lemma NoDup_keys_filter {A} (key : A -> Z) (f : A -> bool) (rows : list A) :
  NoDup (key <$> rows) -> NoDup (key <$> List.filter f rows).
Proof.
  induction rows as [|r rows IH]; [auto|].
  rewrite fmap_cons. intros Hnd. apply NoDup_cons in Hnd as [Hout Hnd].
  change (List.filter f (r :: rows))
    with (if f r then r :: List.filter f rows else List.filter f rows).
  destruct (f r); [|now apply IH].
  rewrite fmap_cons. apply NoDup_cons. split; [|now apply IH].
  intros Hin. apply Hout.
  apply list_elem_of_fmap in Hin as (x & -> & Hx).
  apply list_elem_of_fmap. exists x. split; [reflexivity|].
  apply list_elem_of_In. apply list_elem_of_In, filter_In in Hx. tauto.
Qed.

Lemma commit_images_keys (rows : list (Z * string)) (db : Store) :
  NoDup (Image.id <$> tbl_image db) ->
  NoDup (Image.id <$> tbl_image (commit_images db rows)).
Proof.
  unfold commit_images. revert db.
  induction rows as [|row rows IH]; intros db Hnd; simpl; [exact Hnd|].
  apply IH. simpl. now apply NoDup_next_id.
Qed.

Lemma foldl_delete_image_keys (imgs : list Image.t) (db : Store) :
  NoDup (Image.id <$> tbl_image db) ->
  NoDup (Image.id <$> tbl_image (foldl delete_image db imgs)).
Proof.
  revert db. induction imgs as [|img imgs IH]; intros db Hnd; simpl; [exact Hnd|].
  apply IH. simpl. now apply NoDup_keys_filter.
Qed.

Lemma save_images_keys (db db' : Store) (fs fs' : gset string)
    (files : list FileStorage.t) (property_id : Z) (saved : list string) :
  save_images db fs files property_id = Some (db', fs', saved) ->
  keys_unique db -> keys_unique db'.
Proof.
  unfold save_images.
  destruct (save_each _ _ _ files) as [st|]; simpl; [|discriminate].
  intros E. injection E as <- _ _. intros (Hu & Hp & Hi & Ha & Hq).
  destruct (commit_images_other (ing_added st) db) as (Eu & Ep & Ea & Eq).
  unfold keys_unique. rewrite Eu, Ep, Ea, Eq.
  repeat (split; [assumption|]); try assumption.
  split; [now apply commit_images_keys | now split].
Qed.

Lemma update_property_keys (db : Store) (p : Property.t) :
  Property.id <$> tbl_property (update_property db p) = Property.id <$> tbl_property db.
Proof.
  unfold update_property. simpl. rewrite <- list_fmap_compose.
  apply list_fmap_ext. intros _ r _. simpl.
  destruct (Property.id r =? Property.id p) eqn:E; [|reflexivity].
  apply Z.eqb_eq in E. now symmetry.
Qed.

End Keys.

(** X16: primary keys stay unique.  If no two rows of a table share an
    id, the same holds after every route that writes (apply, contact,
    admin_new, admin_edit, admin_delete) and after the bootstrap,
    whatever was submitted. *)
Theorem keys_stay_unique `{Werkzeug} (db : Store) (fs : gset string) (sess : Session)
    (now prop_id : Z) (method : Method) (form : gmap string string)
    (pform : PropertyForm.t) (env : Env) :
  keys_unique db ->
  keys_unique (apply db now prop_id method form).1.1
  /\ keys_unique (contact db now method form).1.1
  /\ (forall out, admin_new db fs sess now method pform = Some out ->
                  keys_unique (out_db out))
  /\ (forall out, admin_edit db fs sess prop_id method pform = Some out ->
                  keys_unique (out_db out))
  /\ keys_unique (admin_delete db sess prop_id).1.1
  /\ keys_unique (bootstrap env db).
Proof.
  intros Hk. pose proof Hk as (Hu & Hp & Hi & Ha & Hq).
  split; [|split; [|split; [|split; [|split]]]].
  - unfold apply. destruct (get_or_404 db prop_id) as [prop|]; [|exact Hk].
    destruct method; [exact Hk|]. destruct (negb _); [exact Hk|].
    simpl. unfold keys_unique. simpl.
    repeat (split; [assumption|]). split; [|assumption].
    now apply NoDup_next_id.
  - unfold contact. destruct method; [exact Hk|]. destruct (negb _); [exact Hk|].
    simpl. unfold keys_unique. simpl.
    repeat (split; [assumption|]). now apply NoDup_next_id.
  - intros out. unfold admin_new.
    destruct (negb (is_authenticated db sess));
      [intros E; injection E as <-; exact Hk|].
    destruct (PropertyForm.validate_on_submit method pform);
      [|intros E; injection E as <-; exact Hk].
    destruct (Field.data (PropertyForm.title pform));
      [|intros E; injection E as <-; exact Hk].
    destruct (Field.data (PropertyForm.address pform));
      [|intros E; injection E as <-; exact Hk].
    destruct (Field.data (PropertyForm.city pform));
      [|intros E; injection E as <-; exact Hk].
    destruct (Field.data (PropertyForm.state pform));
      [|intros E; injection E as <-; exact Hk].
    destruct (Field.data (PropertyForm.price pform));
      [|intros E; injection E as <-; exact Hk].
    match goal with
    | |- context [save_images ?d ?f ?files ?i] =>
        destruct (save_images d f files i) as [[[db' fs'] saved]|] eqn:Es;
          simpl; [|discriminate]
    end.
    intros E. injection E as <-. simpl.
    apply (save_images_keys _ _ _ _ _ _ _ Es).
    unfold keys_unique, insert_property. simpl.
    split; [assumption|]. split; [|repeat split; assumption].
    now apply NoDup_next_id.
  - intros out. unfold admin_edit.
    destruct (negb (is_authenticated db sess));
      [intros E; injection E as <-; exact Hk|].
    destruct (get_or_404 db prop_id) as [prop|];
      [|intros E; injection E as <-; exact Hk].
    destruct (PropertyForm.validate_on_submit method pform);
      [|intros E; injection E as <-; exact Hk].
    destruct (Field.data (PropertyForm.title pform));
      [|intros E; injection E as <-; exact Hk].
    destruct (Field.data (PropertyForm.address pform));
      [|intros E; injection E as <-; exact Hk].
    destruct (Field.data (PropertyForm.city pform));
      [|intros E; injection E as <-; exact Hk].
    destruct (Field.data (PropertyForm.state pform));
      [|intros E; injection E as <-; exact Hk].
    destruct (Field.data (PropertyForm.price pform));
      [|intros E; injection E as <-; exact Hk].
    match goal with
    | |- context [save_images ?d ?f ?files ?i] =>
        destruct (save_images d f files i) as [[[db' fs'] saved]|] eqn:Es;
          simpl; [|discriminate]
    end.
    intros E. injection E as <-. simpl.
    apply (save_images_keys _ _ _ _ _ _ _ Es).
    unfold keys_unique. rewrite update_property_keys. simpl.
    repeat split; assumption.
  - unfold admin_delete. destruct (negb (is_authenticated db sess)); [exact Hk|].
    destruct (get_or_404 db prop_id) as [prop|]; [|exact Hk].
    simpl. unfold session_delete, keys_unique. simpl.
    destruct (foldl_delete_image_other (Property_images db prop) db)
      as (-> & -> & -> & ->).
    split; [assumption|]. split; [now apply NoDup_keys_filter|].
    split; [now apply foldl_delete_image_keys | now split].
  - unfold bootstrap, seed_admin.
    destruct (length (tbl_user db) =? 0)%nat; simpl;
      destruct (length (tbl_property db) =? 0)%nat; simpl;
      unfold keys_unique, insert_property; simpl;
      repeat split; try assumption; now apply NoDup_next_id.
Qed.

Lemma keys_stay_unique_witness :
  keys_unique Demo.db0
  /\ (keys_unique (apply Demo.db0 5 1 POST Scenario.application_form).1.1
      /\ keys_unique (contact Demo.db0 5 POST Scenario.application_form).1.1
      /\ (forall out, @admin_new Demo.werkzeug Demo.db0 ∅ Demo.admin 5 POST Demo.listing
                      = Some out -> keys_unique (out_db out))
      /\ (forall out, @admin_edit Demo.werkzeug Demo.db0 ∅ Demo.admin 1 POST Demo.listing
                      = Some out -> keys_unique (out_db out))
      /\ keys_unique (admin_delete Demo.db0 Demo.admin 1).1.1
      /\ keys_unique (@bootstrap Demo.werkzeug Demo.env Demo.db0)).
Proof.
  assert (H : keys_unique Demo.db0).
  { unfold keys_unique. simpl.
    repeat split; try apply NoDup_nil_2; apply NoDup_singleton. }
  split; [exact H|].
  exact (@keys_stay_unique Demo.werkzeug Demo.db0 ∅ Demo.admin 5 1 POST
           Scenario.application_form Demo.listing Demo.env H).
Defined.

(** * More about the admin forms *)

Section AdminMore.

Context `{Werkzeug}.

Lemma validate_parts (form : PropertyForm.t) :
  PropertyForm.validate form = true ->
  PropertyForm.csrf_ok form = true
  /\ validators.required (PropertyForm.title form)
       (validators.DataRequired_str (PropertyForm.title form))
       (validators.Length_max 150 (PropertyForm.title form)) = true
  /\ validators.required (PropertyForm.address form)
       (validators.DataRequired_str (PropertyForm.address form)) true = true
  /\ validators.required (PropertyForm.city form)
       (validators.DataRequired_str (PropertyForm.city form)) true = true
  /\ validators.required (PropertyForm.state form)
       (validators.DataRequired_str (PropertyForm.state form)) true = true
  /\ validators.required (PropertyForm.price form)
       (validators.DataRequired_int (PropertyForm.price form))
       (validators.NumberRange_min 0 (PropertyForm.price form)) = true
  /\ PropertyForm.valid_choice (PropertyForm.mode form) = true.
Proof.
  unfold PropertyForm.validate. intros Hv.
  repeat (apply andb_true_iff in Hv as [Hv ?]).
  match goal with
  | Hm : negb _ && PropertyForm.valid_choice _ = true |- _ =>
      apply andb_true_iff in Hm as [_ Hm]
  end.
  repeat (split; [assumption|]). assumption.
Qed.

Lemma required_str_nonblank (f : Field.t string) (rest : bool) :
  validators.required f (validators.DataRequired_str f) rest = true ->
  validators.DataRequired_str f = true
  /\ exists d, Field.data f = Some d /\ Py.strip d <> "".
Proof.
  unfold validators.required. intros Hv.
  apply andb_true_iff in Hv as [Hv _]. apply andb_true_iff in Hv as [Hv _].
  split; [exact Hv|]. unfold validators.DataRequired_str in Hv.
  destruct (Field.data f) as [d|]; [|discriminate].
  apply andb_true_iff in Hv as [_ Hv].
  exists d. split; [reflexivity|]. now apply truthy_str.
Qed.

Lemma required_price_positive (f : Field.t Z) :
  validators.required f (validators.DataRequired_int f) (validators.NumberRange_min 0 f)
  = true ->
  exists z, Field.data f = Some z /\ 0 < z.
Proof.
  unfold validators.required, validators.DataRequired_int, validators.NumberRange_min.
  destruct (Field.data f) as [z|]; [|discriminate].
  intros Hv. apply andb_true_iff in Hv as [Hv Hle].
  apply andb_true_iff in Hv as [Hnz _].
  unfold Py.truthy, Py.option_truthy, Py.int_truthy in Hnz.
  apply negb_true_iff, Z.eqb_neq in Hnz. apply Z.leb_le in Hle.
  exists z. split; [reflexivity | lia].
Qed.

Lemma refused_not_valid (method : Method) (form : PropertyForm.t) :
  listing_form_refused method form ->
  PropertyForm.validate_on_submit method form = false.
Proof.
  unfold PropertyForm.validate_on_submit.
  intros [-> | Hr]; [reflexivity|].
  apply andb_false_iff. right. apply not_true_is_false. intros Hv.
  apply validate_parts in Hv as (Hcsrf & Ht & _ & _ & _ & Hp & Hm).
  destruct Hr as [Hr | [Hr | [Hr | Hr]]].
  - congruence.
  - apply required_price_positive in Hp as (z & Ez & Hz).
    specialize (Hr z Ez). lia.
  - congruence.
  - apply required_str_nonblank in Ht as [Ht _]. congruence.
Qed.

(** What a form that validates is known to hold. *)
Lemma validate_facts (form : PropertyForm.t) :
  PropertyForm.validate form = true ->
  exists title address city state price mode,
    (Field.data (PropertyForm.title form) = Some title /\ Py.strip title <> "")
    /\ (Field.data (PropertyForm.address form) = Some address /\ Py.strip address <> "")
    /\ (Field.data (PropertyForm.city form) = Some city /\ Py.strip city <> "")
    /\ (Field.data (PropertyForm.state form) = Some state /\ Py.strip state <> "")
    /\ (Field.data (PropertyForm.price form) = Some price /\ 0 < price)
    /\ (Field.data (PropertyForm.mode form) = Some mode
        /\ (mode = "rent" \/ mode = "sale")).
Proof.
  intros Hv. apply validate_parts in Hv as (_ & Ht & Ha & Hc & Hs & Hp & Hm).
  apply required_str_nonblank in Ht as [_ (title & Ht)].
  apply required_str_nonblank in Ha as [_ (address & Ha)].
  apply required_str_nonblank in Hc as [_ (city & Hc)].
  apply required_str_nonblank in Hs as [_ (state & Hs)].
  apply required_price_positive in Hp as (price & Hp).
  unfold PropertyForm.valid_choice in Hm.
  destruct (Field.data (PropertyForm.mode form)) as [mode|] eqn:Em; [|discriminate].
  apply orb_true_iff in Hm. rewrite !String.eqb_eq in Hm.
  exists title, address, city, state, price, mode.
  repeat (split; [assumption|]). split; [reflexivity | assumption].
Qed.

Lemma get_app_old {A} (key : A -> Z) (rows : list A) (x r : A) (i : Z) :
  get key rows i = Some r -> get key (rows ++ [x])%list i = Some r.
Proof.
  unfold get. induction rows as [|y rows IH]; simpl; [discriminate|].
  destruct (key y =? i); [auto | exact IH].
Qed.

Lemma get_app_new {A} (key : A -> Z) (rows : list A) (x : A) :
  (forall r, In r rows -> key r <> key x) ->
  get key (rows ++ [x])%list (key x) = Some x.
Proof.
  unfold get. induction rows as [|y rows IH]; intros Hfresh; simpl.
  - now rewrite Z.eqb_refl.
  - destruct (key y =? key x) eqn:E.
    + apply Z.eqb_eq in E. exfalso. apply (Hfresh y); [now left | exact E].
    + apply IH. intros r Hr. apply Hfresh. now right.
Qed.

(** [save_images] keeps the rows there are. *)
Lemma save_images_frame (db db' : Store) (fs fs' : gset string)
    (files : list FileStorage.t) (property_id : Z) (saved : list string) :
  save_images db fs files property_id = Some (db', fs', saved) ->
  tbl_user db' = tbl_user db /\ tbl_property db' = tbl_property db
  /\ tbl_application db' = tbl_application db /\ tbl_inquiry db' = tbl_inquiry db
  /\ (exists rows, tbl_image db' = (tbl_image db ++ rows)%list)
  /\ fs ⊆ fs'.
Proof.
  intros E.
  destruct (save_images_never_overwrites_aux db fs files property_id)
    as (db2 & fs2 & saved2 & rows & E2 & Hrows & Hfs).
  rewrite E in E2. injection E2 as <- <- <-.
  destruct (save_images_total db fs files property_id)
    as (db3 & fs3 & saved3 & E3 & Hu & Hp & Ha & Hq).
  rewrite E in E3. injection E3 as <- <- <-.
  repeat (split; [assumption|]). split; [now exists rows | exact Hfs].
Qed.

End AdminMore.

Section AdminRoutes.

Context `{Werkzeug}.

(** The stored [for_rent] of a submitted [mode]. *)
Lemma for_rent_of_mode (form : PropertyForm.t) (mode : string) :
  Field.data (PropertyForm.mode form) = Some mode ->
  mode = "rent" \/ mode = "sale" ->
  (Field.data (PropertyForm.mode form) = Some "rent"
   /\ (if bool_decide (Field.data (PropertyForm.mode form) = Some "rent")
       then true else false) = true)
  \/ (Field.data (PropertyForm.mode form) = Some "sale"
      /\ (if bool_decide (Field.data (PropertyForm.mode form) = Some "rent")
          then true else false) = false).
Proof.
  intros -> [-> | ->]; [left | right]; split; reflexivity.
Qed.

(** What [admin_new] does with a form that validates. *)
Lemma admin_new_appends (db : Store) (fs : gset string) (sess : Session) (now : Z)
    (form : PropertyForm.t) :
  is_authenticated db sess = true ->
  PropertyForm.validate form = true ->
  exists title address city state price db' fs',
    Field.data (PropertyForm.title form) = Some title
    /\ Field.data (PropertyForm.address form) = Some address
    /\ Field.data (PropertyForm.city form) = Some city
    /\ Field.data (PropertyForm.state form) = Some state
    /\ Field.data (PropertyForm.price form) = Some price
    /\ admin_new db fs sess now POST form
       = Some (mkOutcome db' fs' [("Property created.", "success")]
                 (Redirect "admin_dashboard" None))
    /\ tbl_property db'
       = (tbl_property db
          ++ [Property.mk (next_id (Property.id <$> tbl_property db))
                (Py.strip title) (Py.strip address) (Py.strip city) (Py.strip state)
                price
                (if bool_decide (Field.data (PropertyForm.mode form) = Some "rent")
                 then true else false)
                (Py.or_else (Field.data (PropertyForm.beds form)) 1)
                (Py.or_else (Field.data (PropertyForm.baths form)) 1%float)
                (Py.or_else (Field.data (PropertyForm.sqft form)) 500)
                (Py.or_else (Field.data (PropertyForm.description form)) "")
                now])%list
    /\ tbl_user db' = tbl_user db
    /\ tbl_application db' = tbl_application db
    /\ tbl_inquiry db' = tbl_inquiry db
    /\ (exists rows, tbl_image db' = (tbl_image db ++ rows)%list)
    /\ fs ⊆ fs'.
Proof.
  intros Hauth Hv.
  destruct (validate_required_data form Hv)
    as (title & address & city & state & price & Et & Ea & Ec & Es & Ep).
  exists title, address, city, state, price.
  unfold admin_new, PropertyForm.validate_on_submit.
  rewrite Hauth, Hv, Et, Ea, Ec, Es, Ep. simpl.
  match goal with
  | |- context [save_images ?d ?f ?files ?i] =>
      destruct (save_images d f files i) as [[[db' fs'] saved]|] eqn:Esave;
        [|destruct (save_images_total d f files i) as (? & ? & ? & E' & _); congruence]
  end.
  apply save_images_frame in Esave as (Hu & Hp & Hap & Hq & Hi & Hfs).
  exists db', fs'. simpl in *.
  repeat (split; [reflexivity|]). split; [exact Hp|].
  repeat (split; [assumption|]). assumption.
Qed.

(** What [admin_edit] does with a form that validates. *)
Lemma admin_edit_rewrites (db : Store) (fs : gset string) (sess : Session)
    (prop_id : Z) (prop : Property.t) (form : PropertyForm.t) :
  is_authenticated db sess = true ->
  get_or_404 db prop_id = Some prop ->
  PropertyForm.validate form = true ->
  exists p db' fs',
    admin_edit db fs sess prop_id POST form
    = Some (mkOutcome db' fs' [("Property updated.", "success")]
              (Redirect "admin_dashboard" None))
    /\ Property.id p = prop_id
    /\ Property.created_at p = Property.created_at prop
    /\ tbl_property db' = tbl_property (update_property db p)
    /\ tbl_user db' = tbl_user db
    /\ tbl_application db' = tbl_application db
    /\ tbl_inquiry db' = tbl_inquiry db
    /\ (exists rows, tbl_image db' = (tbl_image db ++ rows)%list)
    /\ fs ⊆ fs'.
Proof.
  intros Hauth Hget Hv.
  destruct (validate_required_data form Hv)
    as (title & address & city & state & price & Et & Ea & Ec & Es & Ep).
  unfold admin_edit, PropertyForm.validate_on_submit.
  rewrite Hauth, Hget, Hv, Et, Ea, Ec, Es, Ep. simpl.
  match goal with
  | |- context [save_images (update_property _ ?p) ?f ?files ?i] =>
      exists p;
      destruct (save_images (update_property db p) f files i)
        as [[[db' fs'] saved]|] eqn:Esave;
        [|destruct (save_images_total (update_property db p) f files i)
            as (? & ? & ? & E' & _); congruence]
  end.
  apply save_images_frame in Esave as (Hu & Hp & Hap & Hq & Hi & Hfs).
  exists db', fs'. simpl in *.
  split; [reflexivity|]. split; [now apply get_some_id in Hget|].
  split; [reflexivity|]. split; [exact Hp|].
  repeat (split; [assumption|]). assumption.
Qed.

End AdminRoutes.

(** X17: a listing form that does not get through validation (not a
    POST, a wrong CSRF token, a price that is missing, zero or negative,
    a type other than rent or sale, a blank title) writes nothing: for a
    logged-in admin [admin_new] and [admin_edit] answer with the form
    page again, and the store and the upload tree are untouched. *)
Theorem admin_forms_refuse_without_writing `{Werkzeug} (db : Store) (fs : gset string)
    (sess : Session) (now prop_id : Z) (prop : Property.t) (method : Method)
    (form : PropertyForm.t) :
  is_authenticated db sess = true ->
  get_or_404 db prop_id = Some prop ->
  listing_form_refused method form ->
  admin_new db fs sess now method form
  = Some (mkOutcome db fs [] (Render "admin/new.html" []))
  /\ admin_edit db fs sess prop_id method form
     = Some (mkOutcome db fs [] (Render "admin/edit.html" [prop])).
Proof.
  intros Hauth Hget Hr. apply refused_not_valid in Hr.
  unfold admin_new, admin_edit. rewrite Hauth, Hget, Hr. simpl. split; reflexivity.
Qed.

Lemma admin_forms_refuse_without_writing_witness :
  is_authenticated Demo.db0 Demo.admin = true
  /\ get_or_404 Demo.db0 1 = Some Scenario.loft
  /\ listing_form_refused POST Scenario.free_listing
  /\ (@admin_new Demo.werkzeug Demo.db0 ∅ Demo.admin 5 POST Scenario.free_listing
      = Some (mkOutcome Demo.db0 ∅ [] (Render "admin/new.html" []))
      /\ @admin_edit Demo.werkzeug Demo.db0 ∅ Demo.admin 1 POST Scenario.free_listing
         = Some (mkOutcome Demo.db0 ∅ [] (Render "admin/edit.html" [Scenario.loft]))).
Proof.
  assert (H : listing_form_refused POST Scenario.free_listing).
  { right. right. left. intros z E. injection E as <-. lia. }
  split; [reflexivity|]. split; [reflexivity|]. split; [exact H|].
  exact (@admin_forms_refuse_without_writing Demo.werkzeug Demo.db0 ∅ Demo.admin 5 1
           Scenario.loft POST Scenario.free_listing eq_refl eq_refl H).
Defined.

(** X18: what [admin_new] stores for a form that validates is a sound
    listing: one new row, with an id no other listing has, the current
    time, a price above zero, a title, address, city and state that are
    not empty, and [for_rent] set exactly when the type is rent (clear
    exactly when it is sale). *)
Theorem admin_new_stores_valid_listing `{Werkzeug} (db : Store) (fs : gset string)
    (sess : Session) (now : Z) (form : PropertyForm.t) :
  is_authenticated db sess = true ->
  PropertyForm.validate form = true ->
  exists out p,
    admin_new db fs sess now POST form = Some out
    /\ out_response out = Redirect "admin_dashboard" None
    /\ tbl_property (out_db out) = (tbl_property db ++ [p])%list
    /\ (forall r, In r (tbl_property db) -> Property.id r <> Property.id p)
    /\ Property.created_at p = now
    /\ 0 < Property.price p
    /\ Property.title p <> "" /\ Property.address p <> ""
    /\ Property.city p <> "" /\ Property.state p <> ""
    /\ ((Field.data (PropertyForm.mode form) = Some "rent" /\ Property.for_rent p = true)
        \/ (Field.data (PropertyForm.mode form) = Some "sale"
            /\ Property.for_rent p = false)).
Proof.
  intros Hauth Hv.
  destruct (admin_new_appends db fs sess now form Hauth Hv)
    as (title & address & city & state & price & db' & fs'
        & Et & Ea & Ec & Es & Ep & E & Hprops & _).
  destruct (validate_facts form Hv)
    as (title' & address' & city' & state' & price' & mode
        & [Et' Ht] & [Ea' Ha] & [Ec' Hc] & [Es' Hs] & [Ep' Hp] & [Em Hm]).
  rewrite Et in Et'. rewrite Ea in Ea'. rewrite Ec in Ec'. rewrite Es in Es'.
  rewrite Ep in Ep'.
  injection Et' as <-. injection Ea' as <-. injection Ec' as <-. injection Es' as <-.
  injection Ep' as <-.
  do 2 eexists. split; [exact E|]. simpl.
  split; [reflexivity|]. split; [exact Hprops|]. simpl.
  split; [intros r Hr; now apply next_id_fresh|].
  repeat (split; [assumption || reflexivity|]).
  exact (for_rent_of_mode form mode Em Hm).
Qed.

Lemma admin_new_stores_valid_listing_witness :
  is_authenticated Demo.db0 Demo.admin = true
  /\ PropertyForm.validate Demo.listing = true
  /\ exists out p,
       @admin_new Demo.werkzeug Demo.db0 ∅ Demo.admin 5 POST Demo.listing = Some out
       /\ out_response out = Redirect "admin_dashboard" None
       /\ tbl_property (out_db out) = (tbl_property Demo.db0 ++ [p])%list
       /\ (forall r, In r (tbl_property Demo.db0) -> Property.id r <> Property.id p)
       /\ Property.created_at p = 5
       /\ 0 < Property.price p
       /\ Property.title p <> "" /\ Property.address p <> ""
       /\ Property.city p <> "" /\ Property.state p <> ""
       /\ ((Field.data (PropertyForm.mode Demo.listing) = Some "rent"
            /\ Property.for_rent p = true)
           \/ (Field.data (PropertyForm.mode Demo.listing) = Some "sale"
               /\ Property.for_rent p = false)).
Proof.
  split; [reflexivity|]. split; [reflexivity|].
  exact (@admin_new_stores_valid_listing Demo.werkzeug Demo.db0 ∅ Demo.admin 5
           Demo.listing eq_refl eq_refl).
Defined.

(** X19: a listing created through [admin_new] can be looked up at once:
    the detail page of the new id shows the new row, every listing that
    could be looked up before still gives the same row, and users,
    applications, inquiries, existing images and existing files are all
    kept. *)
Theorem admin_new_then_detail `{Werkzeug} (db : Store) (fs : gset string)
    (sess : Session) (now : Z) (form : PropertyForm.t) :
  is_authenticated db sess = true ->
  PropertyForm.validate form = true ->
  exists out p,
    admin_new db fs sess now POST form = Some out
    /\ tbl_property (out_db out) = (tbl_property db ++ [p])%list
    /\ property_detail (out_db out) (Property.id p) = Render "property_detail.html" [p]
    /\ (forall i r, get_or_404 db i = Some r -> get_or_404 (out_db out) i = Some r)
    /\ tbl_user (out_db out) = tbl_user db
    /\ tbl_application (out_db out) = tbl_application db
    /\ tbl_inquiry (out_db out) = tbl_inquiry db
    /\ (exists rows, tbl_image (out_db out) = (tbl_image db ++ rows)%list)
    /\ fs ⊆ out_fs out.
Proof.
  intros Hauth Hv.
  destruct (admin_new_appends db fs sess now form Hauth Hv)
    as (title & address & city & state & price & db' & fs'
        & _ & _ & _ & _ & _ & E & Hprops & Hu & Ha & Hq & Hi & Hfs).
  do 2 eexists. split; [exact E|]. simpl.
  split; [exact Hprops|].
  split.
  { unfold property_detail, get_or_404. rewrite Hprops.
    rewrite get_app_new; [reflexivity|].
    intros r Hr. now apply next_id_fresh. }
  split.
  { intros i r Hr. unfold get_or_404 in *. rewrite Hprops. now apply get_app_old. }
  repeat (split; [assumption|]). assumption.
Qed.

Lemma admin_new_then_detail_witness :
  is_authenticated Demo.db0 Demo.admin = true
  /\ PropertyForm.validate Demo.listing = true
  /\ exists out p,
       @admin_new Demo.werkzeug Demo.db0 ∅ Demo.admin 5 POST Demo.listing = Some out
       /\ tbl_property (out_db out) = (tbl_property Demo.db0 ++ [p])%list
       /\ property_detail (out_db out) (Property.id p) = Render "property_detail.html" [p]
       /\ (forall i r, get_or_404 Demo.db0 i = Some r -> get_or_404 (out_db out) i = Some r)
       /\ tbl_user (out_db out) = tbl_user Demo.db0
       /\ tbl_application (out_db out) = tbl_application Demo.db0
       /\ tbl_inquiry (out_db out) = tbl_inquiry Demo.db0
       /\ (exists rows, tbl_image (out_db out) = (tbl_image Demo.db0 ++ rows)%list)
       /\ ∅ ⊆ out_fs out.
Proof.
  split; [reflexivity|]. split; [reflexivity|].
  exact (@admin_new_then_detail Demo.werkzeug Demo.db0 ∅ Demo.admin 5 Demo.listing
           eq_refl eq_refl).
Defined.

(** X20: [admin_edit] rewrites one listing in place: the ids of the
    listings, and so their number and order, are as before; the edited
    row keeps its id and its creation time; every listing with another
    id is still there unchanged; its images are kept (new ones come
    after them); users, applications and inquiries are untouched. *)
Theorem admin_edit_in_place `{Werkzeug} (db : Store) (fs : gset string)
    (sess : Session) (prop_id : Z) (prop : Property.t) (form : PropertyForm.t) :
  is_authenticated db sess = true ->
  get_or_404 db prop_id = Some prop ->
  PropertyForm.validate form = true ->
  exists out p,
    admin_edit db fs sess prop_id POST form = Some out
    /\ Property.id <$> tbl_property (out_db out) = Property.id <$> tbl_property db
    /\ get_or_404 (out_db out) prop_id = Some p
    /\ Property.id p = prop_id
    /\ Property.created_at p = Property.created_at prop
    /\ (forall r, In r (tbl_property db) -> Property.id r <> prop_id ->
                  In r (tbl_property (out_db out)))
    /\ (exists rows, tbl_image (out_db out) = (tbl_image db ++ rows)%list)
    /\ tbl_user (out_db out) = tbl_user db
    /\ tbl_application (out_db out) = tbl_application db
    /\ tbl_inquiry (out_db out) = tbl_inquiry db
    /\ fs ⊆ out_fs out.
Proof.
  intros Hauth Hget Hv.
  destruct (admin_edit_rewrites db fs sess prop_id prop form Hauth Hget Hv)
    as (p & db' & fs' & E & Hid & Hct & Hprops & Hu & Ha & Hq & Hi & Hfs).
  exists (mkOutcome db' fs' [("Property updated.", "success")]
            (Redirect "admin_dashboard" None)), p.
  split; [exact E|]. simpl.
  split; [rewrite Hprops; apply update_property_keys|].
  split.
  { unfold get_or_404 in *. rewrite Hprops. subst prop_id.
    now apply (get_update_property db prop p). }
  split; [exact Hid|]. split; [exact Hct|].
  split.
  { intros r Hr Hne. rewrite Hprops. unfold update_property. simpl.
    apply in_map_iff. exists r. split; [|exact Hr].
    destruct (Property.id r =? Property.id p) eqn:Eid; [|reflexivity].
    apply Z.eqb_eq in Eid. congruence. }
  repeat (split; [assumption|]). assumption.
Qed.

Lemma admin_edit_in_place_witness :
  is_authenticated Demo.db0 Demo.admin = true
  /\ get_or_404 Demo.db0 1 = Some Scenario.loft
  /\ PropertyForm.validate Demo.listing = true
  /\ exists out p,
       @admin_edit Demo.werkzeug Demo.db0 ∅ Demo.admin 1 POST Demo.listing = Some out
       /\ Property.id <$> tbl_property (out_db out) = Property.id <$> tbl_property Demo.db0
       /\ get_or_404 (out_db out) 1 = Some p
       /\ Property.id p = 1
       /\ Property.created_at p = Property.created_at Scenario.loft
       /\ (forall r, In r (tbl_property Demo.db0) -> Property.id r <> 1 ->
                     In r (tbl_property (out_db out)))
       /\ (exists rows, tbl_image (out_db out) = (tbl_image Demo.db0 ++ rows)%list)
       /\ tbl_user (out_db out) = tbl_user Demo.db0
       /\ tbl_application (out_db out) = tbl_application Demo.db0
       /\ tbl_inquiry (out_db out) = tbl_inquiry Demo.db0
       /\ ∅ ⊆ out_fs out.
Proof.
  split; [reflexivity|]. split; [reflexivity|]. split; [reflexivity|].
  exact (@admin_edit_in_place Demo.werkzeug Demo.db0 ∅ Demo.admin 1 Scenario.loft
           Demo.listing eq_refl eq_refl eq_refl).
Defined.

(** X21: the dashboard of a logged-in admin lists every listing, each
    once, newest first; it is the list /properties gives when nothing is
    asked for. *)
Theorem admin_dashboard_lists_all (db : Store) (sess : Session) :
  is_authenticated db sess = true ->
  exists props,
    admin_dashboard db sess = ([], Render "admin/dashboard.html" props)
    /\ Permutation props (tbl_property db)
    /\ StronglySorted newer_or_same props
    /\ props = rendered (properties db ∅).
Proof.
  intros Hauth. unfold admin_dashboard. rewrite Hauth.
  eexists. split; [reflexivity|].
  assert (E : Query.all db (Query.order_by Query.created_at_desc Query.query)
              = Query.sort_desc (tbl_property db)).
  { unfold Query.all. simpl. now rewrite filter_all_true. }
  rewrite E. split; [apply sort_desc_perm|]. split; [apply sort_desc_sorted|].
  rewrite properties_rows, filter_all_true; [reflexivity|].
  intros p. reflexivity.
Qed.

Lemma admin_dashboard_lists_all_witness :
  is_authenticated Demo.db0 Demo.admin = true
  /\ exists props,
       admin_dashboard Demo.db0 Demo.admin = ([], Render "admin/dashboard.html" props)
       /\ Permutation props (tbl_property Demo.db0)
       /\ StronglySorted newer_or_same props
       /\ props = rendered (properties Demo.db0 ∅).
Proof.
  split; [reflexivity|].
  exact (admin_dashboard_lists_all Demo.db0 Demo.admin eq_refl).
Defined.

(** X22: the home view shows the newest matches: the full listing is the
    home list followed by the rest, and no row of the rest is newer than
    a row on the home list. *)
Theorem home_lists_the_newest (db : Store) (args : gmap string string) :
  exists rest,
    rendered (properties db args) = (rendered (home db args) ++ rest)%list
    /\ forall p r, In p (rendered (home db args)) -> In r rest ->
                   Property.created_at r <= Property.created_at p.
Proof.
  rewrite home_rows, properties_rows.
  set (l := Query.sort_desc (List.filter (where_clause args) (tbl_property db))).
  exists (skipn 6 l). split; [now rewrite firstn_skipn|].
  pose proof (sort_desc_sorted (List.filter (where_clause args) (tbl_property db))) as Hs.
  fold l in Hs. rewrite <- (firstn_skipn 6 l) in Hs.
  generalize dependent (skipn 6 l). generalize (firstn 6 l). clear l.
  intros l1. induction l1 as [|x l1 IH]; intros l2 Hs p r Hp Hr; [destruct Hp|].
  simpl in Hs. apply StronglySorted_inv in Hs as [Hs Hall].
  destruct Hp as [<- | Hp].
  - rewrite List.Forall_forall in Hall. apply (Hall r). apply in_or_app. now right.
  - now apply (IH l2 Hs).
Qed.

(** X23: once a listing is deleted nobody can apply for it: after the
    delete, /apply/<id> (GET or POST, whatever is submitted) ends in 404
    and writes nothing. *)
Theorem apply_after_delete (db : Store) (sess : Session) (now : Z) (p : Property.t)
    (method : Method) (form : gmap string string) :
  is_authenticated db sess = true ->
  In p (tbl_property db) ->
  apply (admin_delete db sess (Property.id p)).1.1 now (Property.id p) method form
  = ((admin_delete db sess (Property.id p)).1.1, [], Abort 404).
Proof.
  intros Hauth Hp. unfold admin_delete. rewrite Hauth. simpl.
  destruct (get_or_404 db (Property.id p)) as [prop|] eqn:Hget.
  - simpl. unfold apply.
    assert (Hnone : get_or_404 (session_delete db prop) (Property.id p) = None).
    { unfold get_or_404. apply get_none_iff. intros r Hr.
      apply session_delete_property_gone in Hr.
      apply get_some_id in Hget as [_ Hid]. congruence. }
    now rewrite Hnone.
  - simpl. unfold apply. now rewrite Hget.
Qed.

Lemma apply_after_delete_witness :
  is_authenticated Demo.db0 Demo.admin = true
  /\ In Scenario.loft (tbl_property Demo.db0)
  /\ apply (admin_delete Demo.db0 Demo.admin (Property.id Scenario.loft)).1.1 9
       (Property.id Scenario.loft) POST Scenario.application_form
     = ((admin_delete Demo.db0 Demo.admin (Property.id Scenario.loft)).1.1, [], Abort 404).
Proof.
  assert (Hp : In Scenario.loft (tbl_property Demo.db0)) by (left; reflexivity).
  split; [reflexivity|]. split; [exact Hp|].
  exact (apply_after_delete Demo.db0 Demo.admin 9 Scenario.loft POST
           Scenario.application_form eq_refl Hp).
Defined.

(** X24: the bootstrap only ever adds.  The users and the listings that
    were there stay, in place; at most one user is added and only to an
    empty user table (an active one named Admin with the configured or
    default address), at most one listing and only to an empty listing
    table; afterwards neither table is empty; images, applications and
    inquiries are untouched. *)
Theorem bootstrap_only_adds `{Werkzeug} (env : Env) (db : Store) :
  (exists us, tbl_user (bootstrap env db) = (tbl_user db ++ us)%list
              /\ (length us <= 1)%nat
              /\ (tbl_user db <> [] -> us = [])
              /\ forall u, In u us ->
                   User.active u = true /\ User.name u = "Admin"
                   /\ User.email u
                      = default "admin@example.com" (environ env !! "ADMIN_EMAIL"))
  /\ (exists ps, tbl_property (bootstrap env db) = (tbl_property db ++ ps)%list
                 /\ (length ps <= 1)%nat
                 /\ (tbl_property db <> [] -> ps = []))
  /\ tbl_user (bootstrap env db) <> []
  /\ tbl_property (bootstrap env db) <> []
  /\ tbl_image (bootstrap env db) = tbl_image db
  /\ tbl_application (bootstrap env db) = tbl_application db
  /\ tbl_inquiry (bootstrap env db) = tbl_inquiry db.
Proof.
  split; [|split; [|split; [|split]]].
  - rewrite bootstrap_users. unfold seed_admin.
    destruct (tbl_user db) as [|u0 us0] eqn:Eu; simpl; rewrite ?Eu.
    + eexists [_]. split; [reflexivity|]. split; [simpl; lia|].
      split; [congruence|]. intros u [<- | []]. repeat split.
    + exists []. rewrite List.app_nil_r. split; [reflexivity|].
      split; [simpl; lia|]. split; [reflexivity | intros u []].
  - pose proof (seed_admin_properties env db) as Es. unfold bootstrap.
    destruct (tbl_property (seed_admin env db)) as [|p0 ps0] eqn:Ep; simpl.
    + eexists [_]. rewrite Ep, <- Es. split; [reflexivity|].
      split; [simpl; lia | congruence].
    + exists []. rewrite List.app_nil_r, Ep, <- Es. split; [reflexivity|].
      split; [simpl; lia | reflexivity].
  - rewrite bootstrap_users. apply seed_admin_users.
  - apply bootstrap_properties.
  - unfold bootstrap, seed_admin.
    destruct (length (tbl_user db) =? 0)%nat; simpl;
      destruct (length (tbl_property db) =? 0)%nat; simpl; repeat split.
Qed.

(** * The extension allow-list *)

Section Extensions.

#[local] Arguments String.append : simpl nomatch.

Lemma rfind_absent (s : string) :
  Py.contains "." s = false -> Py.rfind s "." = -1.
Proof.
  induction s as [|c s IH]; [reflexivity|].
  change (Py.contains "." (String c s))
    with (String.prefix "." (String c s) || Py.contains "." s).
  intros Hc. apply orb_false_iff in Hc as [Hp Hs].
  simpl Py.rfind. rewrite (IH Hs). simpl.
  destruct (Ascii.eqb c ".") eqn:E; [|reflexivity].
  apply Ascii.eqb_eq in E. subst c. simpl in Hp. destruct s; discriminate Hp.
Qed.

Lemma rfind_last (stem ext : string) :
  Py.contains "." ext = false ->
  Py.rfind (stem +:+ String "." ext) "." = Z.of_nat (String.length stem).
Proof.
  intros Hc. induction stem as [|c stem IH].
  - simpl. now rewrite (rfind_absent _ Hc).
  - change (String c stem +:+ String "." ext) with (String c (stem +:+ String "." ext)).
    simpl Py.rfind. rewrite IH.
    destruct (0 <=? Z.of_nat (String.length stem)) eqn:E; [simpl String.length; lia|].
    apply Z.leb_gt in E. lia.
Qed.

Lemma take_app_length (a b : string) : Py.take (String.length a) (a +:+ b) = a.
Proof. induction a as [|c a IH]; simpl; [now destruct b | now rewrite IH]. Qed.

Lemma drop_app_length (a b : string) : Py.drop (String.length a) (a +:+ b) = b.
Proof. induction a as [|c a IH]; simpl; [now destruct b | exact IH]. Qed.

Lemma rsplit1_last (stem ext : string) :
  Py.contains "." ext = false ->
  Py.rsplit1 (stem +:+ "." +:+ ext) "." = [stem; ext].
Proof.
  intros Hc. unfold Py.rsplit1.
  change (stem +:+ "." +:+ ext) with (stem +:+ String "." ext).
  rewrite (rfind_last _ _ Hc).
  destruct (0 <=? Z.of_nat (String.length stem)) eqn:E; [|apply Z.leb_gt in E; lia].
  unfold Py.slice_to, Py.slice_from.
  rewrite !bound_in_range by (rewrite str_length_app; simpl; lia).
  rewrite Nat2Z.id, take_app_length.
  replace (Z.to_nat (Z.of_nat (String.length stem) + 1))
    with (String.length (stem +:+ ".")) by (rewrite str_length_app; simpl; lia).
  change (stem +:+ String "." ext) with (stem +:+ "." +:+ ext).
  now rewrite <- str_app_assoc, drop_app_length.
Qed.

End Extensions.

(** X25: [allowed_file] looks at what follows the last period, and at
    nothing else: for an [ext] without a period, [stem.ext] is allowed
    exactly when [ext], lower-cased, is png, jpg, jpeg, webp or gif,
    whatever [stem] is; and [ext] on its own, a name without any period,
    is never allowed. *)
Theorem allowed_file_last_extension (stem ext : string) :
  Py.contains "." ext = false ->
  (allowed_file (stem +:+ "." +:+ ext) = true
   <-> Py.lower ext = "png" \/ Py.lower ext = "jpg" \/ Py.lower ext = "jpeg"
       \/ Py.lower ext = "webp" \/ Py.lower ext = "gif")
  /\ allowed_file ext = false.
Proof.
  intros Hc. split; [|unfold allowed_file; now rewrite Hc].
  unfold allowed_file. rewrite (rsplit1_last _ _ Hc). simpl.
  assert (Hdot : Py.contains "." (stem +:+ "." +:+ ext) = true).
  { apply contains_iff. now exists stem, ext. }
  rewrite Hdot. simpl. rewrite bool_decide_eq_true. unfold ALLOWED_EXTENSIONS.
  rewrite !elem_of_union, !elem_of_singleton. tauto.
Qed.

Lemma allowed_file_last_extension_witness :
  Py.contains "." "JPeG" = false
  /\ ((allowed_file ("holiday.2024" +:+ "." +:+ "JPeG") = true
       <-> Py.lower "JPeG" = "png" \/ Py.lower "JPeG" = "jpg" \/ Py.lower "JPeG" = "jpeg"
           \/ Py.lower "JPeG" = "webp" \/ Py.lower "JPeG" = "gif")
      /\ allowed_file "JPeG" = false).
Proof.
  split; [reflexivity|].
  exact (allowed_file_last_extension "holiday.2024" "JPeG" eq_refl).
Defined.

(** * Lookups and deletions under unique keys *)

Section UniqueKeys.

Lemma same_key_same_row {A} (key : A -> Z) (rows : list A) (a b : A) :
  NoDup (key <$> rows) -> In a rows -> In b rows -> key a = key b -> a = b.
Proof.
  induction rows as [|r rows IH]; [intros _ []|].
  rewrite fmap_cons. intros Hnd Ha Hb Hk. apply NoDup_cons in Hnd as [Hout Hnd].
  assert (Hrest : forall x, In x rows -> key x <> key r).
  { intros x Hx E. apply Hout. rewrite <- E.
    apply list_elem_of_fmap. exists x. split; [reflexivity | now apply list_elem_of_In]. }
  destruct Ha as [<- | Ha], Hb as [<- | Hb].
  - reflexivity.
  - exfalso. apply (Hrest b Hb). now symmetry.
  - exfalso. now apply (Hrest a Ha).
  - now apply IH.
Qed.

Lemma get_stored {A} (key : A -> Z) (rows : list A) (r : A) :
  NoDup (key <$> rows) -> In r rows -> get key rows (key r) = Some r.
Proof.
  intros Hnd Hr. destruct (get_is_some key rows r Hr) as [x Hx].
  rewrite Hx. f_equal. apply get_some_id in Hx as [Hin Hk].
  now apply (same_key_same_row key rows).
Qed.


End UniqueKeys.



(** X27: every listing a catalog view shows can be opened: with unique
    keys, for a row listed on the home view or on /properties, the
    detail page of its id shows that very row, and a GET of the
    application form for its id shows the form for it and writes
    nothing. *)
Theorem listed_rows_open (db : Store) (args : gmap string string) (now : Z)
    (form : gmap string string) (p : Property.t) :
  keys_unique db ->
  In p (rendered (properties db args)) \/ In p (rendered (home db args)) ->
  property_detail db (Property.id p) = Render "property_detail.html" [p]
  /\ apply db now (Property.id p) GET form = (db, [], Render "apply.html" [p]).
Proof.
  intros (_ & Hp & _) Hl.
  assert (Hin : In p (tbl_property db)).
  { destruct Hl as [Hl | Hl]; [|apply home_listed in Hl];
      apply properties_listed in Hl; tauto. }
  pose proof (get_stored Property.id _ p Hp Hin) as Hget.
  unfold property_detail, apply, get_or_404. rewrite Hget. split; reflexivity.
Qed.

Lemma listed_rows_open_witness :
  keys_unique Demo.db0
  /\ (In Scenario.loft (rendered (properties Demo.db0 ∅))
      \/ In Scenario.loft (rendered (home Demo.db0 ∅)))
  /\ (property_detail Demo.db0 (Property.id Scenario.loft)
      = Render "property_detail.html" [Scenario.loft]
      /\ apply Demo.db0 3 (Property.id Scenario.loft) GET ∅
         = (Demo.db0, [], Render "apply.html" [Scenario.loft])).
Proof.
  assert (H : keys_unique Demo.db0).
  { unfold keys_unique. simpl.
    repeat split; try apply NoDup_nil_2; apply NoDup_singleton. }
  assert (Hl : In Scenario.loft (rendered (properties Demo.db0 ∅))
               \/ In Scenario.loft (rendered (home Demo.db0 ∅))).
  { right. left. reflexivity. }
  split; [exact H|]. split; [exact Hl|].
  exact (listed_rows_open Demo.db0 ∅ 3 ∅ Scenario.loft H Hl).
Defined.
